(** * errcheckif: a shallow embedding of the linter and its checked properties

    The repository ships the analysis pass in three revisions:

    - [src/unnamed/part_000]: if-initializer rule, [if] and [return] handlers,
      block statement lists walked outward, [||] only.  This is the revision
      the properties below are stated on (module [Part000]).
    - [src/errcheckif/errcheckif.go]: the older pass, [if] handlers only
      (module [Errcheckif]).
    - the Go file embedded in [src/readme.md]: statement lists of blocks and of
      [case]/[select] clauses, no outward walk after the first list, [&&]
      treated like [||] (module [Readme]).

    Where another revision behaves differently on a property, a lemma next
    to the property says so; the property about clause bodies is stated on
    both scanners.

    The functions [findReturnedError], [isIdentifierReassigned], [isIdent] and
    [isNil] have the same text in the three revisions and are embedded once.

    Go's [ast.Node] interface values are embedded as one inductive type;
    a type switch becomes a pattern match.  Statement nodes carry the address
    of the Go object, so that [==] on interface values holding pointers is
    equality of addresses. *)

From Stdlib Require Import List String Ascii Bool Arith Lia.
Import ListNotations.
Open Scope string_scope.
Open Scope list_scope.

Set Warnings "-register-all".

(** ** Syntax trees (go/ast) *)

(** [token.Token], restricted to what the pass looks at. *)
Inductive Token : Type :=
| LOR      (* || *)
| LAND     (* && *)
| EQL      (* == *)
| NEQ      (* != *)
| ASSIGN   (* =  *)
| DEFINE   (* := *)
| OtherTok (name : string).

Definition Token_eqb (a b : Token) : bool :=
  match a, b with
  | LOR, LOR | LAND, LAND | EQL, EQL | NEQ, NEQ
  | ASSIGN, ASSIGN | DEFINE, DEFINE => true
  | OtherTok x, OtherTok y => String.eqb x y
  | _, _ => false
  end.

(** [token.Pos] and the address of a statement object. *)
Definition Pos := nat.
Definition Addr := nat.

(** [*ast.Ident]: an occurrence of a name.  The occurrence is identified by
    its position, which is what the maps of [types.Info] are keyed on. *)
Record Ident : Type := mkIdent { Name : string; NamePos : Pos }.

(** [ast.Node].  The node kinds the pass distinguishes have a constructor of
    their own; every other kind (ExprStmt, SwitchStmt, ForStmt, FuncLit,
    FuncDecl, File, UnaryExpr, BasicLit, ...) is an [OtherNode] that records
    its kind, the address of the object and its children in the order
    [ast.Walk] visits them. *)
Inductive Node : Type :=
| IdentExpr    (id : Ident)
| BinaryExpr   (X : Node) (Op : Token) (Y : Node)
| CallExpr     (Fun : Node) (Args : list Node)
| SelectorExpr (X : Node) (Sel : Ident)
| AssignStmt   (addr : Addr) (Lhs : list Node) (Tok : Token) (Rhs : list Node)
| IfStmt       (addr : Addr) (Init : option Node) (Cond : Node) (Body : Node)
               (Else : option Node)
| ReturnStmt   (addr : Addr) (Results : list Node)
| BlockStmt    (addr : Addr) (List : list Node)
| CaseClause   (addr : Addr) (List : list Node) (Body : list Node)
| CommClause   (addr : Addr) (Comm : option Node) (Body : list Node)
| OtherNode    (kind : string) (addr : Addr) (children : list Node).

Definition optNode (o : option Node) : list Node :=
  match o with Some n => [n] | None => [] end.

(** The children of a node, in the order of [ast.Walk]. *)
Definition children (n : Node) : list Node :=
  match n with
  | IdentExpr _ => []
  | BinaryExpr X _ Y => [X; Y]
  | CallExpr Fun Args => Fun :: Args
  | SelectorExpr X Sel => [X; IdentExpr Sel]
  | AssignStmt _ Lhs _ Rhs => Lhs ++ Rhs
  | IfStmt _ Init Cond Body Else => optNode Init ++ [Cond; Body] ++ optNode Else
  | ReturnStmt _ Results => Results
  | BlockStmt _ List => List
  | CaseClause _ List Body => List ++ Body
  | CommClause _ Comm Body => optNode Comm ++ Body
  | OtherNode _ _ ch => ch
  end.

(** The address of a statement object; expressions are never compared. *)
Definition addrOf (n : Node) : option Addr :=
  match n with
  | AssignStmt a _ _ _ | IfStmt a _ _ _ _ | ReturnStmt a _ | BlockStmt a _
  | CaseClause a _ _ | CommClause a _ _ | OtherNode _ a _ => Some a
  | _ => None
  end.

(** [a == b] on two non-nil [ast.Node] interface values. *)
Definition same_node (a b : Node) : bool :=
  match addrOf a, addrOf b with
  | Some x, Some y => Nat.eqb x y
  | _, _ => false
  end.

(** [ast.Inspect(n, f)]: depth-first traversal; [f] is called on a node before
    its children and returns whether to descend into them.  The callback is a
    closure over mutable variables, here the state [S].  (The final call
    [f(nil)] is left out: the callbacks of this pass ignore it.) *)
Fixpoint Inspect {S : Type} (f : Node -> S -> bool * S) (n : Node) (s : S)
  {struct n} : S :=
  let '(descend, s1) := f n s in
  if descend then
    match n with
    | IdentExpr _ => s1
    | BinaryExpr X _ Y => Inspect f Y (Inspect f X s1)
    | CallExpr Fun Args =>
        fold_left (fun acc c => Inspect f c acc) Args (Inspect f Fun s1)
    | SelectorExpr X Sel => snd (f (IdentExpr Sel) (Inspect f X s1))
    | AssignStmt _ Lhs _ Rhs =>
        fold_left (fun acc c => Inspect f c acc) Rhs
          (fold_left (fun acc c => Inspect f c acc) Lhs s1)
    | IfStmt _ Init Cond Body Else =>
        let s2 := match Init with Some i => Inspect f i s1 | None => s1 end in
        let s3 := Inspect f Body (Inspect f Cond s2) in
        match Else with Some e => Inspect f e s3 | None => s3 end
    | ReturnStmt _ Results =>
        fold_left (fun acc c => Inspect f c acc) Results s1
    | BlockStmt _ List => fold_left (fun acc c => Inspect f c acc) List s1
    | CaseClause _ List Body =>
        fold_left (fun acc c => Inspect f c acc) Body
          (fold_left (fun acc c => Inspect f c acc) List s1)
    | CommClause _ Comm Body =>
        let s2 := match Comm with Some c => Inspect f c s1 | None => s1 end in
        fold_left (fun acc c => Inspect f c acc) Body s2
    | OtherNode _ _ ch => fold_left (fun acc c => Inspect f c acc) ch s1
    end
  else s1.

(** ** Type facts (go/types, [analysis.Pass]) *)

(** [types.Object]: a declaration.  Objects are compared by identity; the
    objects of the universe scope are named, the others numbered. *)
Inductive Object : Type :=
| Universe (name : string)
| Declared (id : nat).

Definition Object_eqb (a b : Object) : bool :=
  match a, b with
  | Universe x, Universe y => String.eqb x y
  | Declared x, Declared y => Nat.eqb x y
  | _, _ => false
  end.

(** [==] on two [types.Object] interface values; [None] is Go's nil. *)
Definition obj_eq (a b : option Object) : bool :=
  match a, b with
  | Some x, Some y => Object_eqb x y
  | None, None => true
  | _, _ => false
  end.

(** [types.Universe.Lookup("nil")]. *)
Definition Universe_nil : Object := Universe "nil".

(** [types.Type], as far as the pass inspects it: a signature exposes its
    result types, anything else is opaque and named. *)
Inductive GoType : Type :=
| Signature (Results : list GoType)
| TypeName  (name : string).

(** The part of [*analysis.Pass] the pass reads: [TypesInfo.ObjectOf],
    [TypesInfo.TypeOf], and the answer of [types.Implements(t, errorType)]
    on the types of the package. *)
Record Pass : Type := mkPass {
  ObjectOf   : Ident -> option Object;
  TypeOf     : Node -> option GoType;
  Implements : GoType -> bool
}.

(** [analysis.Diagnostic], as filled in by [pass.Reportf]. *)
Record Diagnostic : Type := mkDiagnostic { DPos : Pos; Message : string }.

(** ** Functions shared by the three revisions *)

(** [isIdent]: the expression is an identifier bound to the declaration of
    [targetIdent]. *)
Definition isIdent (pass : Pass) (expr : Node) (targetIdent : Ident) : bool :=
  match expr with
  | IdentExpr ident => obj_eq (ObjectOf pass ident) (ObjectOf pass targetIdent)
  | _ => false
  end.

(** [isNil]: the expression is an identifier bound to the predeclared nil. *)
Definition isNil (pass : Pass) (expr : Node) : bool :=
  match expr with
  | IdentExpr ident => obj_eq (ObjectOf pass ident) (Some Universe_nil)
  | _ => false
  end.

(** The loop of [findReturnedError] over the result positions, from
    position [i] on; [results] are the result types from [i]. *)
Fixpoint findReturnedError_loop (pass : Pass) (Lhs : list Node)
  (results : list GoType) (i : nat) : option Ident :=
  match results with
  | [] => None
  | t :: rest =>
      if Implements pass t then
        match nth_error Lhs i with
        | Some (IdentExpr ident) =>
            if negb (String.eqb (Name ident) "_") then Some ident
            else findReturnedError_loop pass Lhs rest (S i)
        | _ => findReturnedError_loop pass Lhs rest (S i)
        end
      else findReturnedError_loop pass Lhs rest (S i)
  end.

(** [findReturnedError(pass, assign, call)]: [None] is the nil identifier. *)
Definition findReturnedError (pass : Pass) (assign call : Node) : option Ident :=
  match assign, call with
  | AssignStmt _ Lhs _ _, CallExpr Fun _ =>
      match TypeOf pass Fun with
      | Some (Signature results) =>
          if Nat.eqb (List.length results) 0 then None
          else findReturnedError_loop pass Lhs results 0
      | _ => None
      end
  | _, _ => None
  end.

(** The loop over [assign.Lhs] in the callback of [isIdentifierReassigned]:
    some left-hand side is an identifier bound to [targetObj]. *)
Definition lhsRebinds (pass : Pass) (targetObj : Object) (Lhs : list Node)
  : bool :=
  existsb (fun lhs =>
             match lhs with
             | IdentExpr ident =>
                 obj_eq (ObjectOf pass ident) (Some targetObj)
             | _ => false
             end) Lhs.

(** The callback of [isIdentifierReassigned]; the state is the captured
    variable [reassigned]. *)
Definition reassignedVisitor (pass : Pass) (targetObj : Object)
  (n : Node) (reassigned : bool) : bool * bool :=
  match n with
  | AssignStmt _ Lhs _ _ =>
      if lhsRebinds pass targetObj Lhs then (false, true)
      else (true, reassigned)
  | _ => (true, reassigned)
  end.

(** [isIdentifierReassigned(pass, stmt, errIdent)]. *)
Definition isIdentifierReassigned (pass : Pass) (stmt : Node) (errIdent : Ident)
  : bool :=
  match ObjectOf pass errIdent with
  | None => false
  | Some targetObj => Inspect (reassignedVisitor pass targetObj) stmt false
  end.

(** ** The traversal services the pass is given *)

(** [astutil.PathEnclosingInterval] and [inspector.Preorder] belong to
    golang.org/x/tools; they are embedded by what their documentation says
    they return on a tree whose statement objects are distinct. *)

Definition firstSome {A : Type} (l : list (option A)) : option A :=
  fold_right (fun o acc => match o with Some x => Some x | None => acc end)
             None l.

Definition hasAddr (a : Addr) (n : Node) : bool :=
  match addrOf n with Some b => Nat.eqb a b | None => false end.

(** The path from the statement object at address [a] up to [n], innermost
    node first, when that object lies in [n]. *)
Fixpoint pathTo (a : Addr) (n : Node) {struct n} : option (list Node) :=
  if hasAddr a n then Some [n]
  else
    let below :=
      match n with
      | IdentExpr _ => []
      | BinaryExpr X _ Y => [pathTo a X; pathTo a Y]
      | CallExpr Fun Args => pathTo a Fun :: map (pathTo a) Args
      | SelectorExpr X _ => [pathTo a X]
      | AssignStmt _ Lhs _ Rhs => map (pathTo a) Lhs ++ map (pathTo a) Rhs
      | IfStmt _ Init Cond Body Else =>
          match Init with Some i => [pathTo a i] | None => [] end
          ++ [pathTo a Cond; pathTo a Body]
          ++ match Else with Some e => [pathTo a e] | None => [] end
      | ReturnStmt _ Results => map (pathTo a) Results
      | BlockStmt _ List => map (pathTo a) List
      | CaseClause _ List Body => map (pathTo a) List ++ map (pathTo a) Body
      | CommClause _ Comm Body =>
          match Comm with Some c => [pathTo a c] | None => [] end
          ++ map (pathTo a) Body
      | OtherNode _ _ ch => map (pathTo a) ch
      end in
    option_map (fun p => p ++ [n]) (firstSome below).

(** [astutil.PathEnclosingInterval(file, node.Pos(), node.End())] for a
    statement [node] of [file]: the node and its ancestors up to the file.
    [None] is the nil path. *)
Definition PathEnclosingInterval (file node : Node) : option (list Node) :=
  match addrOf node with
  | Some a => pathTo a file
  | None => None
  end.

(** [inspector.Preorder] with the node filter for assignment statements:
    the assignment statements of the file in depth-first order. *)
Definition Preorder (file : Node) : list Node :=
  Inspect (fun n acc =>
             (true, match n with
                    | AssignStmt _ _ _ _ => acc ++ [n]
                    | _ => acc
                    end)) file [].

(** ** The condition classifier of part_000 and errcheckif.go (same text) *)

Fixpoint checkCondition (pass : Pass) (cond : Node) (errIdent : Ident)
  {struct cond} : bool :=
  match cond with
  | BinaryExpr X Op Y =>
      if Token_eqb Op LOR then
        checkCondition pass X errIdent || checkCondition pass Y errIdent
      else if Token_eqb Op NEQ || Token_eqb Op EQL then
        if isIdent pass X errIdent && isNil pass Y then true
        else if isNil pass X && isIdent pass Y errIdent then true
        else false
      else false
  | CallExpr Fun Args =>
      match Fun with
      | SelectorExpr selX Sel =>
          match selX with
          | IdentExpr pkgIdent =>
              if negb (String.eqb (Name pkgIdent) "errors") then false
              else if negb (String.eqb (Name Sel) "Is")
                      && negb (String.eqb (Name Sel) "As") then false
              else match Args with
                   | arg0 :: _ => isIdent pass arg0 errIdent
                   | [] => false
                   end
          | _ => false
          end
      | _ => false
      end
  | _ => false
  end.

(** The inner loop [for j := stmtIdx + 1; ...] of the scanners: [Some b] when
    the loop returns [b], [None] when it runs to the end of the list.  The
    handler test differs between the revisions. *)
Fixpoint scanSubsequent (isHandler : Node -> bool) (pass : Pass)
  (errIdent : Ident) (stmts : list Node) : option bool :=
  match stmts with
  | [] => None
  | subsequentStmt :: rest =>
      if isHandler subsequentStmt then Some true
      else if isIdentifierReassigned pass subsequentStmt errIdent then Some false
      else scanSubsequent isHandler pass errIdent rest
  end.

(** [fmt.Sprintf] of the two message formats. *)
Definition message_not_checked_or_returned (name : string) : string :=
  "error '" ++ name ++ "' is not checked or returned".

Definition message_not_checked_with (name : string) : string :=
  "error '" ++ name
  ++ "' is not checked with '!= nil', '== nil', 'errors.Is', or 'errors.As'".

(** ** src/unnamed/part_000 *)

Module Part000.

(** [isHandledInIfInit]. *)
Definition isHandledInIfInit (pass : Pass) (errIdent : Ident)
  (path : list Node) : bool :=
  match path with
  | p0 :: IfStmt _ Init Cond _ _ :: _ =>
      match Init with
      | Some i => if same_node i p0 then checkCondition pass Cond errIdent
                  else false
      | None => false
      end
  | _ => false
  end.

(** [isStmtAValidHandler]. *)
Definition isStmtAValidHandler (pass : Pass) (stmt : Node) (errIdent : Ident)
  : bool :=
  match stmt with
  | IfStmt _ _ Cond _ _ => checkCondition pass Cond errIdent
  | ReturnStmt _ Results =>
      existsb (fun result =>
                 match result with
                 | IdentExpr retIdent =>
                     obj_eq (ObjectOf pass retIdent) (ObjectOf pass errIdent)
                 | _ => false
                 end) Results
  | _ => false
  end.

(** The loop over [block.List]: find the first statement that is [prev],
    scan what follows it, then [break]. *)
Fixpoint scanBlock (pass : Pass) (errIdent : Ident) (prev : Node)
  (list : list Node) : option bool :=
  match list with
  | [] => None
  | stmt :: rest =>
      if same_node stmt prev then
        scanSubsequent (fun s => isStmtAValidHandler pass s errIdent)
                       pass errIdent rest
      else scanBlock pass errIdent prev rest
  end.

(** The loop over [path]; [prev] is [path[i-1]], absent when [i = 0]. *)
Fixpoint walkPath (pass : Pass) (errIdent : Ident) (prev : option Node)
  (path : list Node) : bool :=
  match path with
  | [] => false
  | node :: rest =>
      match node, prev with
      | BlockStmt _ List, Some p =>
          match scanBlock pass errIdent p List with
          | Some b => b
          | None => walkPath pass errIdent (Some node) rest
          end
      | _, _ => walkPath pass errIdent (Some node) rest
      end
  end.

(** [isHandledInSubsequentStatement]. *)
Definition isHandledInSubsequentStatement (pass : Pass) (errIdent : Ident)
  (path : list Node) : bool :=
  walkPath pass errIdent None path.

(** The callback of [run] on one node of [file]; the diagnostics it
    reports. *)
Definition visit (pass : Pass) (file node : Node) : list Diagnostic :=
  match node with
  | AssignStmt _ _ _ [CallExpr Fun Args] =>
      match findReturnedError pass node (CallExpr Fun Args) with
      | None => []
      | Some errIdent =>
          match PathEnclosingInterval file node with
          | None => []
          | Some path =>
              if isHandledInIfInit pass errIdent path then []
              else if negb (isHandledInSubsequentStatement pass errIdent path)
              then [mkDiagnostic (NamePos errIdent)
                      (message_not_checked_or_returned (Name errIdent))]
              else []
          end
      end
  | _ => []
  end.

(** [run]: the diagnostics of the files of the pass, in report order. *)
Definition run (pass : Pass) (files : list Node) : list Diagnostic :=
  flat_map (fun file => flat_map (visit pass file) (Preorder file)) files.

End Part000.

(** ** src/errcheckif/errcheckif.go *)

Module Errcheckif.

(** [checkIfStmtHandlesError]. *)
Definition checkIfStmtHandlesError (pass : Pass) (stmt : Node)
  (errIdent : Ident) : bool :=
  match stmt with
  | IfStmt _ _ Cond _ _ => checkCondition pass Cond errIdent
  | _ => false
  end.

(** The loop over [block.List]; this revision has no [break] after the
    scan, so it goes on looking for [prev] in the rest of the list. *)
Fixpoint scanBlock (pass : Pass) (errIdent : Ident) (prev : Node)
  (list : list Node) : option bool :=
  match list with
  | [] => None
  | stmt :: rest =>
      if same_node stmt prev then
        match scanSubsequent (fun s => checkIfStmtHandlesError pass s errIdent)
                             pass errIdent rest with
        | Some b => Some b
        | None => scanBlock pass errIdent prev rest
        end
      else scanBlock pass errIdent prev rest
  end.

Fixpoint walkPath (pass : Pass) (errIdent : Ident) (prev : option Node)
  (path : list Node) : bool :=
  match path with
  | [] => false
  | node :: rest =>
      match node, prev with
      | BlockStmt _ List, Some p =>
          match scanBlock pass errIdent p List with
          | Some b => b
          | None => walkPath pass errIdent (Some node) rest
          end
      | _, _ => walkPath pass errIdent (Some node) rest
      end
  end.

(** [isErrorHandled]. *)
Definition isErrorHandled (pass : Pass) (errIdent : Ident) (path : list Node)
  : bool :=
  walkPath pass errIdent None path.

Definition visit (pass : Pass) (file node : Node) : list Diagnostic :=
  match node with
  | AssignStmt _ _ _ [CallExpr Fun Args] =>
      match findReturnedError pass node (CallExpr Fun Args) with
      | None => []
      | Some errIdent =>
          match PathEnclosingInterval file node with
          | None => []
          | Some path =>
              if negb (isErrorHandled pass errIdent path)
              then [mkDiagnostic (NamePos errIdent)
                      (message_not_checked_with (Name errIdent))]
              else []
          end
      end
  | _ => []
  end.

Definition run (pass : Pass) (files : list Node) : list Diagnostic :=
  flat_map (fun file => flat_map (visit pass file) (Preorder file)) files.

End Errcheckif.

(** ** The Go file embedded in src/readme.md *)

Module Readme.

(** [checkCondition]: here [&&] is handled like [||]. *)
Fixpoint checkCondition (pass : Pass) (cond : Node) (errIdent : Ident)
  {struct cond} : bool :=
  match cond with
  | BinaryExpr X Op Y =>
      if Token_eqb Op LOR || Token_eqb Op LAND then
        checkCondition pass X errIdent || checkCondition pass Y errIdent
      else if Token_eqb Op NEQ || Token_eqb Op EQL then
        if isIdent pass X errIdent && isNil pass Y then true
        else if isNil pass X && isIdent pass Y errIdent then true
        else false
      else false
  | CallExpr Fun Args =>
      match Fun with
      | SelectorExpr selX Sel =>
          match selX with
          | IdentExpr pkgIdent =>
              if negb (String.eqb (Name pkgIdent) "errors") then false
              else if negb (String.eqb (Name Sel) "Is")
                      && negb (String.eqb (Name Sel) "As") then false
              else match Args with
                   | arg0 :: _ => isIdent pass arg0 errIdent
                   | [] => false
                   end
          | _ => false
          end
      | _ => false
      end
  | _ => false
  end.

Definition isHandledInIfInit (pass : Pass) (errIdent : Ident)
  (path : list Node) : bool :=
  match path with
  | p0 :: IfStmt _ Init Cond _ _ :: _ =>
      match Init with
      | Some i => if same_node i p0 then checkCondition pass Cond errIdent
                  else false
      | None => false
      end
  | _ => false
  end.

(** [getStmtList]; the empty list is Go's nil slice. *)
Definition getStmtList (node : Node) : list Node :=
  match node with
  | BlockStmt _ List => List
  | CaseClause _ _ Body => Body
  | CommClause _ _ Body => Body
  | _ => []
  end.

Definition isStmtAValidHandler (pass : Pass) (stmt : Node) (errIdent : Ident)
  : bool :=
  match stmt with
  | IfStmt _ _ Cond _ _ => checkCondition pass Cond errIdent
  | ReturnStmt _ Results =>
      existsb (fun result =>
                 match result with
                 | IdentExpr retIdent =>
                     obj_eq (ObjectOf pass retIdent) (ObjectOf pass errIdent)
                 | _ => false
                 end) Results
  | _ => false
  end.

(** The loop over [stmtList]: at the first statement that is [prev], scan
    what follows and return ([false] when the scan runs to the end). *)
Fixpoint scanList (pass : Pass) (errIdent : Ident) (prev : Node)
  (stmtList : list Node) : option bool :=
  match stmtList with
  | [] => None
  | stmt :: rest =>
      if same_node stmt prev then
        match scanSubsequent (fun s => isStmtAValidHandler pass s errIdent)
                             pass errIdent rest with
        | Some b => Some b
        | None => Some false
        end
      else scanList pass errIdent prev rest
  end.

(** The loop [for i := 1; i < len(path); i++]; [prev] is [path[i-1]]. *)
Fixpoint walkPath (pass : Pass) (errIdent : Ident) (prev : Node)
  (path : list Node) : bool :=
  match path with
  | [] => false
  | node :: rest =>
      match getStmtList node with
      | [] => walkPath pass errIdent node rest
      | stmtList =>
          match scanList pass errIdent prev stmtList with
          | Some b => b
          | None => walkPath pass errIdent node rest
          end
      end
  end.

(** [isHandledInSubsequentStatement]. *)
Definition isHandledInSubsequentStatement (pass : Pass) (errIdent : Ident)
  (path : list Node) : bool :=
  match path with
  | [] => false
  | p0 :: rest => walkPath pass errIdent p0 rest
  end.

End Readme.

(** ** Induction over syntax trees *)

Section NodeInduction.
Variable P : Node -> Prop.
Hypothesis step : forall n, Forall P (children n) -> P n.

Fixpoint Node_children_ind (n : Node) : P n :=
  let all :=
    fix all (l : list Node) : Forall P l :=
      match l with
      | [] => Forall_nil P
      | x :: r => Forall_cons x (Node_children_ind x) (all r)
      end in
  step n
    (match n as n' return Forall P (children n') with
     | IdentExpr _ => Forall_nil P
     | BinaryExpr X _ Y =>
         Forall_cons X (Node_children_ind X)
           (Forall_cons Y (Node_children_ind Y) (Forall_nil P))
     | CallExpr Fun Args =>
         Forall_cons Fun (Node_children_ind Fun) (all Args)
     | SelectorExpr X Sel =>
         Forall_cons X (Node_children_ind X)
           (Forall_cons (IdentExpr Sel)
              (step (IdentExpr Sel) (Forall_nil P)) (Forall_nil P))
     | AssignStmt _ Lhs _ Rhs =>
         proj2 (Forall_app P Lhs Rhs) (conj (all Lhs) (all Rhs))
     | IfStmt _ Init Cond Body Else =>
         proj2 (Forall_app P (optNode Init) _)
           (conj
              (match Init as o return Forall P (optNode o) with
               | Some i => Forall_cons i (Node_children_ind i) (Forall_nil P)
               | None => Forall_nil P
               end)
              (Forall_cons Cond (Node_children_ind Cond)
                 (Forall_cons Body (Node_children_ind Body)
                    (match Else as o return Forall P (optNode o) with
                     | Some e =>
                         Forall_cons e (Node_children_ind e) (Forall_nil P)
                     | None => Forall_nil P
                     end))))
     | ReturnStmt _ Results => all Results
     | BlockStmt _ List => all List
     | CaseClause _ List Body =>
         proj2 (Forall_app P List Body) (conj (all List) (all Body))
     | CommClause _ Comm Body =>
         proj2 (Forall_app P (optNode Comm) Body)
           (conj
              (match Comm as o return Forall P (optNode o) with
               | Some c => Forall_cons c (Node_children_ind c) (Forall_nil P)
               | None => Forall_nil P
               end)
              (all Body))
     | OtherNode _ _ ch => all ch
     end).
End NodeInduction.

(** ** Vocabulary of the properties *)

(** [m] occurs within [n], at any depth. *)
Inductive Within (m : Node) : Node -> Prop :=
| Within_here : Within m m
| Within_child : forall n c, In c (children n) -> Within m c -> Within m n.

(** [stmt] contains, at some depth, an assignment one of whose left-hand
    sides is an identifier bound to the declaration [o]. *)
Definition Rebinds (pass : Pass) (o : Object) (stmt : Node) : Prop :=
  exists addr Lhs Tok Rhs ident,
    Within (AssignStmt addr Lhs Tok Rhs) stmt
    /\ In (IdentExpr ident) Lhs
    /\ ObjectOf pass ident = Some o.

(** The expression is an identifier bound to the declaration of [target]. *)
Definition ResolvesTo (pass : Pass) (expr : Node) (target : Ident) : Prop :=
  exists ident,
    expr = IdentExpr ident /\ ObjectOf pass ident = ObjectOf pass target.

(** The expression is an identifier bound to the predeclared nil. *)
Definition IsNilSentinel (pass : Pass) (expr : Node) : Prop :=
  exists ident,
    expr = IdentExpr ident /\ ObjectOf pass ident = Some Universe_nil.

(** [assign] is an assignment with a single call on its right-hand side for
    which the detector returns [errIdent]. *)
Definition Tracked (pass : Pass) (assign : Node) (errIdent : Ident) : Prop :=
  exists addr Lhs Tok Fun Args,
    assign = AssignStmt addr Lhs Tok [CallExpr Fun Args]
    /\ findReturnedError pass assign (CallExpr Fun Args) = Some errIdent.

(** [path] starts at [assign], a statement of the block that is the next
    node of the path, and [following] are the statements of that block after
    [assign]. *)
Definition FollowedInBlock (path : list Node) (assign : Node)
  (following : list Node) : Prop :=
  exists b before outer,
    path = assign :: BlockStmt b (before ++ assign :: following) :: outer
    /\ Forall (fun s => same_node s assign = false) before.

(** [l] is the statement list of [node]: the list of a block (a function,
    branch or loop body) or the body of a [case] or [select] clause. *)
Definition StmtListOf (node : Node) (l : list Node) : Prop :=
  (exists a, node = BlockStmt a l)
  \/ (exists a exprs, node = CaseClause a exprs l)
  \/ (exists a comm, node = CommClause a comm l).

(** [path] starts at [assign], a statement of the body that is the next node
    of the path, and [following] are the statements of that body after
    [assign]. *)
Definition FollowedInBody (path : list Node) (assign : Node)
  (following : list Node) : Prop :=
  exists holder before outer,
    path = assign :: holder :: outer
    /\ StmtListOf holder (before ++ assign :: following)
    /\ Forall (fun s => same_node s assign = false) before.

(** [clause] is a [case] clause of a [switch] or a clause of a [select]. *)
Definition IsClause (clause : Node) : Prop :=
  (exists a exprs body, clause = CaseClause a exprs body)
  \/ (exists a comm body, clause = CommClause a comm body).

(** ** Example programs *)

Module Examples.

Definition ident (name : string) (pos : Pos) : Node :=
  IdentExpr (mkIdent name pos).

Definition typeOfCallee (n : Node) : option GoType :=
  match n with
  | IdentExpr i =>
      if String.eqb (Name i) "mightFail"
      then Some (Signature [TypeName "int"; TypeName "error"])
      else if String.eqb (Name i) "twoErrors"
      then Some (Signature [TypeName "error"; TypeName "error"])
      else if String.eqb (Name i) "errorFirst"
      then Some (Signature [TypeName "error"; TypeName "int"])
      else None
  | _ => None
  end.

Definition implementsError (t : GoType) : bool :=
  match t with
  | TypeName n => String.eqb n "error"
  | _ => false
  end.

(** Type facts for the examples: every occurrence of [err] is one variable,
    [nil] is the predeclared nil, the blank identifier has no object;
    [mightFail] is a [func() (int, error)], [twoErrors] a
    [func() (error, error)] and [errorFirst] a [func() (error, int)]. *)
Definition pass : Pass :=
  mkPass
    (fun i => if String.eqb (Name i) "err" then Some (Declared 1)
              else if String.eqb (Name i) "nil" then Some Universe_nil
              else if String.eqb (Name i) "fail" then Some (Declared 2)
              else if String.eqb (Name i) "target" then Some (Declared 3)
              else None)
    typeOfCallee implementsError.

(** The same, in a scope where [errors] and [nil] are local variables. *)
Definition shadowPass : Pass :=
  mkPass
    (fun i => if String.eqb (Name i) "err" then Some (Declared 1)
              else if String.eqb (Name i) "nil" then Some (Declared 51)
              else if String.eqb (Name i) "errors" then Some (Declared 50)
              else None)
    typeOfCallee implementsError.

(** [_, err := mightFail()] or [_, err = mightFail()], at address [a] and
    position [pos]. *)
Definition assignErr (a : Addr) (tok : Token) (pos : Pos) : Node :=
  AssignStmt a [ident "_" pos; ident "err" (pos + 1)] tok
             [CallExpr (ident "mightFail" (pos + 2)) []].

(** [err != nil] and [err == nil] *)
Definition errNeqNil (pos : Pos) : Node :=
  BinaryExpr (ident "err" pos) NEQ (ident "nil" (pos + 1)).

Definition errEqlNil (pos : Pos) : Node :=
  BinaryExpr (ident "err" pos) EQL (ident "nil" (pos + 1)).

(** [if cond { }] *)
Definition ifEmpty (a : Addr) (cond : Node) : Node :=
  IfStmt a None cond (BlockStmt (a + 1) []) None.

(** [fmt.Println()] *)
Definition println (a : Addr) (pos : Pos) : Node :=
  OtherNode "ExprStmt" a
    [CallExpr (SelectorExpr (ident "fmt" pos) (mkIdent "Println" (pos + 1)))
              []].

(** A file with one function whose body is [body]. *)
Definition funcFile (body : list Node) : Node :=
  OtherNode "File" 1000 [OtherNode "FuncDecl" 1001 [BlockStmt 1002 body]].

Definition filePath (body : list Node) : list Node :=
  [BlockStmt 1002 body; OtherNode "FuncDecl" 1001 [BlockStmt 1002 body];
   funcFile body].

(** [_, err := mightFail(); fmt.Println(); _, err = mightFail();
     if err != nil { }] *)
Definition rebindBody : list Node :=
  [assignErr 1 DEFINE 10; println 2 20; assignErr 3 ASSIGN 30;
   ifEmpty 4 (errNeqNil 40)].

(** [_, err := mightFail(); fmt.Println();
     if err != nil { _, err = mightFail() }; if err != nil { }] *)
Definition rebindInIfBody : list Node :=
  [assignErr 1 DEFINE 10; println 2 20;
   IfStmt 3 None (errNeqNil 30) (BlockStmt 4 [assignErr 5 ASSIGN 40]) None;
   ifEmpty 6 (errNeqNil 50)].

(** [fail, err := mightFail()] *)
Definition assignFailErr : Node :=
  AssignStmt 1 [ident "fail" 10; ident "err" 11] DEFINE
             [CallExpr (ident "mightFail" 12) []].

(** [fail, err := mightFail(); fmt.Println(); return fail, err] *)
Definition returnBody : list Node :=
  [assignFailErr; println 2 20;
   ReturnStmt 3 [ident "fail" 30; ident "err" 31]].

(** [if _, err = mightFail(); err != nil { }] *)
Definition ifInitBody : list Node :=
  [IfStmt 2 (Some (assignErr 1 ASSIGN 10)) (errNeqNil 20) (BlockStmt 3 [])
          None].

(** [_, err := mightFail(); if err == nil { }] *)
Definition eqlNilBody : list Node :=
  [assignErr 1 DEFINE 10; ifEmpty 2 (errEqlNil 20)].

(** [_, err := mightFail(); fmt.Println()] *)
Definition uncheckedBody : list Node :=
  [assignErr 1 DEFINE 10; println 2 20].

(** [switch { case true: _, err = mightFail(); if err != nil { } }] *)
Definition caseInner : Node :=
  CaseClause 12 [ident "true" 5]
             [assignErr 1 ASSIGN 10; ifEmpty 2 (errNeqNil 20)].

Definition handlerInClauseBody : list Node :=
  [OtherNode "SwitchStmt" 10 [BlockStmt 11 [caseInner]]].

(** [switch { case true: _, err = mightFail() }; if err != nil { }] *)
Definition caseAlone : Node :=
  CaseClause 12 [ident "true" 5] [assignErr 1 ASSIGN 10].

Definition handlerAfterSwitchBody : list Node :=
  [OtherNode "SwitchStmt" 10 [BlockStmt 11 [caseAlone]];
   ifEmpty 2 (errNeqNil 20)].

(** [_, err := twoErrors()] *)
Definition assignTwoErrors : Node :=
  AssignStmt 1 [ident "_" 10; ident "err" 11] DEFINE
             [CallExpr (ident "twoErrors" 12) []].

(** [_, _ = mightFail()] *)
Definition assignDiscardAll : Node :=
  AssignStmt 1 [ident "_" 10; ident "_" 11] ASSIGN
             [CallExpr (ident "mightFail" 12) []].

(** [err := errorFirst()]: one target for two results. *)
Definition assignErrorFirst : Node :=
  AssignStmt 1 [ident "err" 10] DEFINE [CallExpr (ident "errorFirst" 11) []].

(** [fail := mightFail()]: one target for two results. *)
Definition assignShort : Node :=
  AssignStmt 1 [ident "fail" 10] DEFINE [CallExpr (ident "mightFail" 11) []].

(** [errors.Is(err, target)] *)
Definition errorsIs (pos : Pos) : Node :=
  CallExpr (SelectorExpr (ident "errors" pos) (mkIdent "Is" (pos + 1)))
           [ident "err" (pos + 2); ident "target" (pos + 3)].

End Examples.

(** ** Further functions of the three files *)

(** The source range of a node: [node.Pos()] and [node.End()]. *)
Record Span : Type := mkSpan { SPos : Pos; SEnd : Pos }.

(** [file.Pos() <= node.Pos() && node.End() <= file.End()]. *)
Definition encloses (file node : Span) : bool :=
  Nat.leb (SPos file) (SPos node) && Nat.leb (SEnd node) (SEnd file).

(** [findFile(pass, node)] over [pass.Files]; [spanOf] gives the range of a
    node, [None] is the nil file. *)
Fixpoint findFile (spanOf : Node -> Span) (files : list Node) (node : Node)
  : option Node :=
  match files with
  | [] => None
  | file :: rest =>
      if encloses (spanOf file) (spanOf node) then Some file
      else findFile spanOf rest node
  end.

(** [strings.HasSuffix(s, suffix)]:
    [len(s) >= len(suffix) && s[len(s)-len(suffix):] == suffix]. *)
Definition HasSuffix (s suffix : string) : bool :=
  Nat.leb (String.length suffix) (String.length s)
  && String.eqb (substring (String.length s - String.length suffix)
                           (String.length suffix) s)
                suffix.

Module ReadmeRun.

(** The test at the head of the callback of [run] in the revision embedded
    in src/readme.md: [fileName] is the name of [pass.Fset.File(node.Pos())],
    [None] when that file is nil. *)
Definition skipped (fileName : option string) : bool :=
  match fileName with
  | Some name => HasSuffix name "_test.go"
  | None => false
  end.

(** The callback of [run] in that revision. *)
Definition visit (pass : Pass) (fileName : option string) (file node : Node)
  : list Diagnostic :=
  if skipped fileName then []
  else
    match node with
    | AssignStmt _ _ _ [CallExpr Fun Args] =>
        match findReturnedError pass node (CallExpr Fun Args) with
        | None => []
        | Some errIdent =>
            match PathEnclosingInterval file node with
            | None => []
            | Some path =>
                if Readme.isHandledInIfInit pass errIdent path then []
                else if negb (Readme.isHandledInSubsequentStatement pass
                                errIdent path)
                then [mkDiagnostic (NamePos errIdent)
                        (message_not_checked_or_returned (Name errIdent))]
                else []
            end
        end
    | _ => []
    end.

End ReadmeRun.

(** The conditions that count as a check of [target]: a disjunction one of
    whose operands counts, a comparison of the target with nil by [!=] or
    [==] in either order, a call [errors.Is] or [errors.As] whose first
    argument is the target. *)
Inductive Proves (pass : Pass) (target : Ident) : Node -> Prop :=
| Proves_or_left : forall X Y,
    Proves pass target X -> Proves pass target (BinaryExpr X LOR Y)
| Proves_or_right : forall X Y,
    Proves pass target Y -> Proves pass target (BinaryExpr X LOR Y)
| Proves_comparison : forall X Op Y,
    Op = NEQ \/ Op = EQL ->
    (ResolvesTo pass X target /\ IsNilSentinel pass Y)
    \/ (IsNilSentinel pass X /\ ResolvesTo pass Y target) ->
    Proves pass target (BinaryExpr X Op Y)
| Proves_errors_call : forall pkgIdent Sel arg0 args,
    Name pkgIdent = "errors" ->
    Name Sel = "Is" \/ Name Sel = "As" ->
    ResolvesTo pass arg0 target ->
    Proves pass target
      (CallExpr (SelectorExpr (IdentExpr pkgIdent) Sel) (arg0 :: args)).

(** The same with [&&] accepted like [||], as the revision embedded in
    src/readme.md does. *)
Inductive ProvesReadme (pass : Pass) (target : Ident) : Node -> Prop :=
| ProvesReadme_left : forall X Op Y,
    Op = LOR \/ Op = LAND ->
    ProvesReadme pass target X -> ProvesReadme pass target (BinaryExpr X Op Y)
| ProvesReadme_right : forall X Op Y,
    Op = LOR \/ Op = LAND ->
    ProvesReadme pass target Y -> ProvesReadme pass target (BinaryExpr X Op Y)
| ProvesReadme_comparison : forall X Op Y,
    Op = NEQ \/ Op = EQL ->
    (ResolvesTo pass X target /\ IsNilSentinel pass Y)
    \/ (IsNilSentinel pass X /\ ResolvesTo pass Y target) ->
    ProvesReadme pass target (BinaryExpr X Op Y)
| ProvesReadme_errors_call : forall pkgIdent Sel arg0 args,
    Name pkgIdent = "errors" ->
    Name Sel = "Is" \/ Name Sel = "As" ->
    ResolvesTo pass arg0 target ->
    ProvesReadme pass target
      (CallExpr (SelectorExpr (IdentExpr pkgIdent) Sel) (arg0 :: args)).

Module MoreExamples.

(** [_, s.err = mightFail()]: the error is stored in a field. *)
Definition assignToField : Node :=
  AssignStmt 1
    [Examples.ident "_" 10;
     SelectorExpr (Examples.ident "s" 11) (mkIdent "err" 12)]
    ASSIGN [CallExpr (Examples.ident "mightFail" 13) []].

(** [if ok { _, err = mightFail(); fmt.Println() }; if err != nil { }] *)
Definition innerBlock : Node :=
  BlockStmt 6 [Examples.assignErr 1 ASSIGN 10; Examples.println 2 20].

Definition checkedAfterBranchBody : list Node :=
  [IfStmt 5 None (Examples.ident "ok" 5) innerBlock None;
   Examples.ifEmpty 7 (Examples.errNeqNil 30)].

(** [if _, err = mightFail(); ok { if err != nil { } }] followed by
    [fmt.Println()]: the only check is inside the body of the [if]. *)
Definition ifInitUnproven : Node :=
  IfStmt 2 (Some (Examples.assignErr 1 ASSIGN 10)) (Examples.ident "ok" 20)
         (BlockStmt 3 [Examples.ifEmpty 4 (Examples.errNeqNil 30)]) None.

Definition checkedInsideIfBody : list Node :=
  [ifInitUnproven; Examples.println 6 40].

(** The same [if] followed by [if err != nil { }]. *)
Definition checkedAfterIfBody : list Node :=
  [ifInitUnproven; Examples.ifEmpty 7 (Examples.errNeqNil 50)].

(** [_, err := mightFail(); if errors.Is(err, target) { }] *)
Definition errorsIsBody : list Node :=
  [Examples.assignErr 1 DEFINE 10; Examples.println 2 20;
   Examples.ifEmpty 3 (Examples.errorsIs 30)].

(** [switch { case true: fail, err := mightFail(); return fail, err }] *)
Definition caseReturn : Node :=
  CaseClause 12 [Examples.ident "true" 5]
             [Examples.assignFailErr;
              ReturnStmt 3 [Examples.ident "fail" 30; Examples.ident "err" 31]].

Definition returnInClauseBody : list Node :=
  [OtherNode "SwitchStmt" 10 [BlockStmt 11 [caseReturn]]].

(** Two files of a package and a statement of the second one, with their
    source ranges. *)
Definition fileA : Node := OtherNode "File" 1000 [].
Definition fileB : Node := OtherNode "File" 2000 [Examples.println 2 20].

Definition spanOf (n : Node) : Span :=
  match addrOf n with
  | Some 1000 => mkSpan 1 100
  | Some 2000 => mkSpan 101 200
  | Some 2 => mkSpan 120 133
  | _ => mkSpan 0 0
  end.

End MoreExamples.

(** ** Identity of declarations *)

Lemma Object_eqb_eq (a b : Object) : Object_eqb a b = true <-> a = b.
Proof.
  destruct a as [x|x], b as [y|y]; simpl; split; intro H;
    try discriminate; try congruence.
  - apply String.eqb_eq in H. now subst.
  - injection H as ->. apply String.eqb_refl.
  - apply Nat.eqb_eq in H. now subst.
  - injection H as ->. apply Nat.eqb_refl.
Qed.

Lemma obj_eq_eq (a b : option Object) : obj_eq a b = true <-> a = b.
Proof.
  destruct a as [x|], b as [y|]; simpl; split; intro H;
    try discriminate; try reflexivity.
  - apply Object_eqb_eq in H. now subst.
  - injection H as ->. now apply Object_eqb_eq.
Qed.

Lemma isIdent_iff (pass : Pass) (expr : Node) (target : Ident) :
  isIdent pass expr target = true <-> ResolvesTo pass expr target.
Proof.
  unfold ResolvesTo. split.
  - destruct expr; simpl; try discriminate.
    intro H. apply obj_eq_eq in H. eauto.
  - intros (ident & -> & H). simpl. now apply obj_eq_eq.
Qed.

Lemma isNil_iff (pass : Pass) (expr : Node) :
  isNil pass expr = true <-> IsNilSentinel pass expr.
Proof.
  unfold IsNilSentinel. split.
  - destruct expr; simpl; try discriminate.
    intro H. apply obj_eq_eq in H. eauto.
  - intros (ident & -> & H). simpl. now apply obj_eq_eq.
Qed.

(** ** [ast.Inspect] and the rebinding test *)

(** [Inspect] visits the node, then its [children] from left to right. *)
Lemma Inspect_children {S : Type} (f : Node -> S -> bool * S) (n : Node) (s : S) :
  Inspect f n s =
  (let '(descend, s1) := f n s in
   if descend then fold_left (fun acc c => Inspect f c acc) (children n) s1
   else s1).
Proof.
  destruct n; simpl; destruct (f _ s) as [[|] s1]; try reflexivity.
  - destruct (f (IdentExpr Sel) _) as [[|] s2]; reflexivity.
  - now rewrite fold_left_app.
  - destruct Init, Else; reflexivity.
  - now rewrite fold_left_app.
  - destruct Comm; reflexivity.
Qed.

Lemma lhsRebinds_iff (pass : Pass) (o : Object) (Lhs : list Node) :
  lhsRebinds pass o Lhs = true <->
  exists ident, In (IdentExpr ident) Lhs /\ ObjectOf pass ident = Some o.
Proof.
  unfold lhsRebinds. rewrite existsb_exists. split.
  - intros (lhs & Hin & H). destruct lhs; try discriminate.
    apply obj_eq_eq in H. eauto.
  - intros (ident & Hin & H). exists (IdentExpr ident). split; [assumption|].
    now apply obj_eq_eq.
Qed.

Lemma fold_Inspect_acc (pass : Pass) (o : Object) (l : list Node) :
  Forall (fun c => forall s,
            Inspect (reassignedVisitor pass o) c s
            = s || Inspect (reassignedVisitor pass o) c false) l ->
  forall s,
    fold_left (fun acc c => Inspect (reassignedVisitor pass o) c acc) l s
    = s || existsb (fun c => Inspect (reassignedVisitor pass o) c false) l.
Proof.
  induction 1 as [|c l Hc _ IH]; intro s; simpl.
  - now rewrite orb_false_r.
  - rewrite IH, Hc. now rewrite orb_assoc.
Qed.

Lemma Inspect_reassigned_acc (pass : Pass) (o : Object) (n : Node) :
  forall s,
    Inspect (reassignedVisitor pass o) n s
    = s || Inspect (reassignedVisitor pass o) n false.
Proof.
  induction n as [n IH] using Node_children_ind. intro s.
  rewrite !Inspect_children.
  assert (Hv : reassignedVisitor pass o n s = (true, s)
               /\ reassignedVisitor pass o n false = (true, false)
               \/ reassignedVisitor pass o n s = (false, true)
               /\ reassignedVisitor pass o n false = (false, true)).
  { destruct n; simpl; auto.
    destruct (lhsRebinds pass o Lhs); auto. }
  destruct Hv as [[-> ->]|[-> ->]].
  - rewrite !(fold_Inspect_acc pass o _ IH). reflexivity.
  - now rewrite orb_true_r.
Qed.

(** The value of [Inspect] with the rebinding callback: the node is a
    rebinding assignment, or one of its children contains one. *)
Lemma Inspect_reassigned_unfold (pass : Pass) (o : Object) (n : Node) :
  Inspect (reassignedVisitor pass o) n false
  = (match n with
     | AssignStmt _ Lhs _ _ => lhsRebinds pass o Lhs
     | _ => false
     end
     || existsb (fun c => Inspect (reassignedVisitor pass o) c false)
                (children n)).
Proof.
  rewrite Inspect_children.
  assert (Hall : Forall (fun c => forall s,
                   Inspect (reassignedVisitor pass o) c s
                   = s || Inspect (reassignedVisitor pass o) c false)
                   (children n)).
  { apply Forall_forall. intros c _. apply Inspect_reassigned_acc. }
  destruct n; simpl reassignedVisitor; cbv iota beta;
    try (rewrite (fold_Inspect_acc pass o _ Hall); reflexivity).
  destruct (lhsRebinds pass o Lhs); [reflexivity|].
  now rewrite (fold_Inspect_acc pass o _ Hall).
Qed.

Lemma Rebinds_child (pass : Pass) (o : Object) (n c : Node) :
  In c (children n) -> Rebinds pass o c -> Rebinds pass o n.
Proof.
  intros Hin (a & Lhs & Tok & Rhs & ident & Hw & Hl & Ho).
  exists a, Lhs, Tok, Rhs, ident. split; [|now split].
  now apply Within_child with c.
Qed.

Lemma Inspect_reassigned_iff (pass : Pass) (o : Object) (n : Node) :
  Inspect (reassignedVisitor pass o) n false = true <-> Rebinds pass o n.
Proof.
  induction n as [n IH] using Node_children_ind.
  rewrite Inspect_reassigned_unfold, orb_true_iff, existsb_exists.
  rewrite Forall_forall in IH. split.
  - intros [H|(c & Hin & H)].
    + destruct n; try discriminate.
      apply lhsRebinds_iff in H. destruct H as (ident & Hin & Ho).
      exists addr, Lhs, Tok, Rhs, ident. split; [constructor|now split].
    + apply Rebinds_child with c; [assumption|]. now apply IH.
  - intros (a & Lhs & Tok & Rhs & ident & Hw & Hl & Ho).
    inversion Hw as [Heq|n' c Hin Hw' Heq]; subst.
    + left. apply lhsRebinds_iff. eauto.
    + right. exists c. split; [assumption|]. apply IH; [assumption|].
      exists a, Lhs, Tok, Rhs, ident. now repeat split.
Qed.

(** [isIdentifierReassigned] answers exactly whether the statement contains,
    at any depth, an assignment that rebinds the declaration of the
    identifier. *)
Lemma isIdentifierReassigned_iff (pass : Pass) (stmt : Node) (errIdent : Ident) :
  isIdentifierReassigned pass stmt errIdent = true <->
  exists o, ObjectOf pass errIdent = Some o /\ Rebinds pass o stmt.
Proof.
  unfold isIdentifierReassigned.
  destruct (ObjectOf pass errIdent) as [o|].
  - rewrite Inspect_reassigned_iff. split.
    + intro H. exists o. now split.
    + intros (o' & Heq & H). now injection Heq as ->.
  - split; [discriminate|]. intros (o & Heq & _). discriminate.
Qed.

(** ** The scan of the statements after the assignment *)

Lemma same_node_assign (a : Addr) (Lhs : list Node) (Tok : Token)
  (Rhs : list Node) :
  same_node (AssignStmt a Lhs Tok Rhs) (AssignStmt a Lhs Tok Rhs) = true.
Proof. unfold same_node. simpl. apply Nat.eqb_refl. Qed.

Lemma Tracked_same_node (pass : Pass) (assign : Node) (errIdent : Ident) :
  Tracked pass assign errIdent -> same_node assign assign = true.
Proof. intros (a & Lhs & Tok & F & Args & -> & _). apply same_node_assign. Qed.

(** Statements that neither handle nor rebind are passed over. *)
Lemma scanSubsequent_skip (isHandler : Node -> bool) (pass : Pass)
  (errIdent : Ident) (mid rest : list Node) :
  (forall s, In s mid ->
             isHandler s = false
             /\ isIdentifierReassigned pass s errIdent = false) ->
  scanSubsequent isHandler pass errIdent (mid ++ rest)
  = scanSubsequent isHandler pass errIdent rest.
Proof.
  induction mid as [|s mid IH]; intro H; simpl; [reflexivity|].
  destruct (H s (or_introl eq_refl)) as [-> ->].
  apply IH. intros s' Hin. apply H. now right.
Qed.

(** A handler that no rebinding statement precedes ends the scan with
    success. *)
Lemma scanSubsequent_handler (isHandler : Node -> bool) (pass : Pass)
  (errIdent : Ident) (mid : list Node) (h : Node) (post : list Node) :
  (forall s, In s mid -> isIdentifierReassigned pass s errIdent = false) ->
  isHandler h = true ->
  scanSubsequent isHandler pass errIdent (mid ++ h :: post) = Some true.
Proof.
  intros Hmid Hh. induction mid as [|s mid IH]; simpl.
  - now rewrite Hh.
  - destruct (isHandler s); [reflexivity|].
    rewrite (Hmid s (or_introl eq_refl)).
    apply IH. intros s' Hin. apply Hmid. now right.
Qed.

(** Without a handler the scan never succeeds. *)
Lemma scanSubsequent_no_handler (isHandler : Node -> bool) (pass : Pass)
  (errIdent : Ident) (stmts : list Node) :
  (forall s, In s stmts -> isHandler s = false) ->
  scanSubsequent isHandler pass errIdent stmts <> Some true.
Proof.
  induction stmts as [|s stmts IH]; intro H; simpl; [discriminate|].
  rewrite (H s (or_introl eq_refl)).
  destruct (isIdentifierReassigned pass s errIdent); [discriminate|].
  apply IH. intros s' Hin. apply H. now right.
Qed.

Lemma Part000_scanBlock_found (pass : Pass) (errIdent : Ident)
  (prev : Node) (before following : list Node) :
  Forall (fun s => same_node s prev = false) before ->
  same_node prev prev = true ->
  Part000.scanBlock pass errIdent prev (before ++ prev :: following)
  = scanSubsequent (fun s => Part000.isStmtAValidHandler pass s errIdent)
                   pass errIdent following.
Proof.
  intros Hbefore Hrefl. induction Hbefore as [|s before Hs _ IH]; simpl.
  - now rewrite Hrefl.
  - now rewrite Hs.
Qed.

(** When the scan of the statements after the assignment returns, its
    answer is the answer of [isHandledInSubsequentStatement]. *)
Lemma Part000_scan_decides (pass : Pass) (errIdent : Ident)
  (path : list Node) (assign : Node) (following : list Node) (b : bool) :
  Tracked pass assign errIdent ->
  FollowedInBlock path assign following ->
  scanSubsequent (fun s => Part000.isStmtAValidHandler pass s errIdent)
                 pass errIdent following = Some b ->
  Part000.isHandledInSubsequentStatement pass errIdent path = b.
Proof.
  intros Ht (blk & before & outer & -> & Hbefore) Hscan.
  pose proof (Tracked_same_node _ _ _ Ht) as Hrefl.
  destruct Ht as (a & Lhs & Tok & F & Args & -> & _).
  unfold Part000.isHandledInSubsequentStatement. simpl.
  rewrite Part000_scanBlock_found by assumption.
  now rewrite Hscan.
Qed.

Lemma Part000_not_if_init (pass : Pass) (errIdent : Ident)
  (path : list Node) (assign : Node) (following : list Node) :
  FollowedInBlock path assign following ->
  Part000.isHandledInIfInit pass errIdent path = false.
Proof. intros (blk & before & outer & -> & _). reflexivity. Qed.

(** What the callback of [run] reports for a tracked assignment. *)
Lemma Part000_visit_tracked (pass : Pass) (file assign : Node)
  (errIdent : Ident) (path : list Node) :
  Tracked pass assign errIdent ->
  PathEnclosingInterval file assign = Some path ->
  Part000.visit pass file assign
  = if Part000.isHandledInIfInit pass errIdent path then []
    else if negb (Part000.isHandledInSubsequentStatement pass errIdent path)
         then [mkDiagnostic (NamePos errIdent)
                 (message_not_checked_or_returned (Name errIdent))]
         else [].
Proof.
  intros (a & Lhs & Tok & F & Args & -> & Hfind) Hpath.
  unfold Part000.visit. now rewrite Hfind, Hpath.
Qed.

(** ** C1: a rebinding ends the scan *)

(** C1, as amended.  A tracked error is followed in the statement list of its
    block by a statement that neither handles nor rebinds it, then by a
    statement that is not itself a handler and contains, at any depth, an
    assignment rebinding the same declaration, then by an [if] whose
    condition proves the target.  The scan returns at the rebinding
    statement, the error is unhandled, and the diagnostic for the original
    assignment is reported. *)
Theorem C1_rebinding_stops_scan
  (pass : Pass) (file assign : Node) (errIdent : Ident) (path : list Node)
  (o : Object) (s1 s2 : Node)
  (a3 : Addr) (init3 : option Node) (cond3 body3 : Node) (else3 : option Node)
  (post : list Node) :
  Tracked pass assign errIdent ->
  PathEnclosingInterval file assign = Some path ->
  FollowedInBlock path assign
    (s1 :: s2 :: IfStmt a3 init3 cond3 body3 else3 :: post) ->
  ObjectOf pass errIdent = Some o ->
  Part000.isStmtAValidHandler pass s1 errIdent = false ->
  ~ Rebinds pass o s1 ->
  Part000.isStmtAValidHandler pass s2 errIdent = false ->
  Rebinds pass o s2 ->
  checkCondition pass cond3 errIdent = true ->
  scanSubsequent (fun s => Part000.isStmtAValidHandler pass s errIdent)
    pass errIdent (s1 :: s2 :: IfStmt a3 init3 cond3 body3 else3 :: post)
  = Some false
  /\ Part000.isHandledInSubsequentStatement pass errIdent path = false
  /\ Part000.visit pass file assign
     = [mkDiagnostic (NamePos errIdent)
          ("error '" ++ Name errIdent ++ "' is not checked or returned")].
Proof.
  intros Ht Hpath Hfol Ho Hh1 Hr1 Hh2 Hr2 _.
  assert (Hscan :
    scanSubsequent (fun s => Part000.isStmtAValidHandler pass s errIdent)
      pass errIdent (s1 :: s2 :: IfStmt a3 init3 cond3 body3 else3 :: post)
    = Some false).
  { simpl. rewrite Hh1.
    assert (isIdentifierReassigned pass s1 errIdent = false) as ->.
    { apply not_true_is_false. intro H.
      apply isIdentifierReassigned_iff in H.
      destruct H as (o' & Heq & H). rewrite Ho in Heq.
      injection Heq as <-. now apply Hr1. }
    rewrite Hh2.
    assert (isIdentifierReassigned pass s2 errIdent = true) as ->.
    { apply isIdentifierReassigned_iff. eauto. }
    reflexivity. }
  pose proof (Part000_scan_decides _ _ _ _ _ _ Ht Hfol Hscan) as Hhandled.
  repeat split; try assumption.
  rewrite (Part000_visit_tracked _ _ _ _ _ Ht Hpath).
  rewrite (Part000_not_if_init _ _ _ _ _ Hfol), Hhandled. reflexivity.
Qed.

Lemma C1_rebinding_stops_scan_witness :
  scanSubsequent
    (fun s => Part000.isStmtAValidHandler Examples.pass s (mkIdent "err" 11))
    Examples.pass (mkIdent "err" 11)
    [Examples.println 2 20; Examples.assignErr 3 ASSIGN 30;
     IfStmt 4 None (Examples.errNeqNil 40) (BlockStmt 5 []) None]
  = Some false
  /\ Part000.isHandledInSubsequentStatement Examples.pass (mkIdent "err" 11)
       (Examples.assignErr 1 DEFINE 10
        :: Examples.filePath Examples.rebindBody) = false
  /\ Part000.visit Examples.pass (Examples.funcFile Examples.rebindBody)
       (Examples.assignErr 1 DEFINE 10)
     = [mkDiagnostic 11 "error 'err' is not checked or returned"].
Proof.
  apply (C1_rebinding_stops_scan Examples.pass
           (Examples.funcFile Examples.rebindBody)
           (Examples.assignErr 1 DEFINE 10) (mkIdent "err" 11)
           (Examples.assignErr 1 DEFINE 10
            :: Examples.filePath Examples.rebindBody)
           (Declared 1) (Examples.println 2 20)
           (Examples.assignErr 3 ASSIGN 30)
           4 None (Examples.errNeqNil 40) (BlockStmt 5 []) None []).
  - exists 1, [Examples.ident "_" 10; Examples.ident "err" 11], DEFINE,
      (Examples.ident "mightFail" 12), []. split; reflexivity.
  - reflexivity.
  - exists 1002, [], [OtherNode "FuncDecl" 1001
                        [BlockStmt 1002 Examples.rebindBody];
                      Examples.funcFile Examples.rebindBody].
    split; [reflexivity | constructor].
  - reflexivity.
  - reflexivity.
  - intro H. apply Inspect_reassigned_iff in H. vm_compute in H.
    discriminate H.
  - reflexivity.
  - apply Inspect_reassigned_iff. reflexivity.
  - reflexivity.
Defined.

(** C1 as stated fails when the statement that contains the rebinding is
    itself a handler.  In
    [_, err := mightFail(); fmt.Println();
     if err != nil { _, err = mightFail() }; if err != nil { }]
    the third statement contains an assignment to [err], yet the scan ends
    there with success and nothing is reported for the first assignment. *)
Lemma C1_rebinding_inside_handler_is_handled :
  Tracked Examples.pass (Examples.assignErr 1 DEFINE 10) (mkIdent "err" 11)
  /\ PathEnclosingInterval (Examples.funcFile Examples.rebindInIfBody)
       (Examples.assignErr 1 DEFINE 10)
     = Some (Examples.assignErr 1 DEFINE 10
             :: Examples.filePath Examples.rebindInIfBody)
  /\ FollowedInBlock
       (Examples.assignErr 1 DEFINE 10
        :: Examples.filePath Examples.rebindInIfBody)
       (Examples.assignErr 1 DEFINE 10)
       [Examples.println 2 20;
        IfStmt 3 None (Examples.errNeqNil 30)
               (BlockStmt 4 [Examples.assignErr 5 ASSIGN 40]) None;
        IfStmt 6 None (Examples.errNeqNil 50) (BlockStmt 7 []) None]
  /\ Part000.isStmtAValidHandler Examples.pass (Examples.println 2 20)
       (mkIdent "err" 11) = false
  /\ ~ Rebinds Examples.pass (Declared 1) (Examples.println 2 20)
  /\ Rebinds Examples.pass (Declared 1)
       (IfStmt 3 None (Examples.errNeqNil 30)
               (BlockStmt 4 [Examples.assignErr 5 ASSIGN 40]) None)
  /\ checkCondition Examples.pass (Examples.errNeqNil 50) (mkIdent "err" 11)
     = true
  /\ Part000.visit Examples.pass (Examples.funcFile Examples.rebindInIfBody)
       (Examples.assignErr 1 DEFINE 10) = [].
Proof.
  repeat split.
  - exists 1, [Examples.ident "_" 10; Examples.ident "err" 11], DEFINE,
      (Examples.ident "mightFail" 12), []. split; reflexivity.
  - exists 1002, [], [OtherNode "FuncDecl" 1001
                        [BlockStmt 1002 Examples.rebindInIfBody];
                      Examples.funcFile Examples.rebindInIfBody].
    split; [reflexivity | constructor].
  - intro H. apply Inspect_reassigned_iff in H. vm_compute in H.
    discriminate H.
  - apply Inspect_reassigned_iff. reflexivity.
Qed.

(** ** C2: a return that forwards the error *)

Lemma Part000_return_is_handler (pass : Pass) (errIdent retIdent : Ident)
  (a : Addr) (results : list Node) :
  In (IdentExpr retIdent) results ->
  ObjectOf pass retIdent = ObjectOf pass errIdent ->
  Part000.isStmtAValidHandler pass (ReturnStmt a results) errIdent = true.
Proof.
  intros Hin Heq. simpl. apply existsb_exists.
  exists (IdentExpr retIdent). split; [assumption|]. now apply obj_eq_eq.
Qed.

(** C2, as amended.  A tracked error is followed, in the statement list of
    its block, by statements none of which contains a rebinding of its
    declaration and then by a [return] one of whose results is an identifier
    bound to the same declaration.  The error counts as handled and nothing
    is reported.  (The statement list has to be that of a block: part_000
    does not scan the body of a [case] or [select] clause.) *)
Theorem C2_return_forwards_error
  (pass : Pass) (file assign : Node) (errIdent retIdent : Ident)
  (path mid : list Node) (ra : Addr) (results post : list Node) :
  Tracked pass assign errIdent ->
  PathEnclosingInterval file assign = Some path ->
  FollowedInBlock path assign (mid ++ ReturnStmt ra results :: post) ->
  (forall s o, In s mid -> ObjectOf pass errIdent = Some o ->
               ~ Rebinds pass o s) ->
  In (IdentExpr retIdent) results ->
  ObjectOf pass retIdent = ObjectOf pass errIdent ->
  Part000.isHandledInSubsequentStatement pass errIdent path = true
  /\ Part000.visit pass file assign = [].
Proof.
  intros Ht Hpath Hfol Hmid Hin Heq.
  assert (Hhandled :
    Part000.isHandledInSubsequentStatement pass errIdent path = true).
  { apply (Part000_scan_decides _ _ _ _ _ _ Ht Hfol).
    apply scanSubsequent_handler.
    - intros s Hs. apply not_true_is_false. intro H.
      apply isIdentifierReassigned_iff in H.
      destruct H as (o & Ho & H). exact (Hmid s o Hs Ho H).
    - now apply Part000_return_is_handler with retIdent. }
  split; [assumption|].
  rewrite (Part000_visit_tracked _ _ _ _ _ Ht Hpath).
  rewrite (Part000_not_if_init _ _ _ _ _ Hfol), Hhandled. reflexivity.
Qed.

Lemma C2_return_forwards_error_witness :
  Part000.isHandledInSubsequentStatement Examples.pass (mkIdent "err" 11)
    (Examples.assignFailErr :: Examples.filePath Examples.returnBody) = true
  /\ Part000.visit Examples.pass (Examples.funcFile Examples.returnBody)
       (Examples.assignFailErr) = [].
Proof.
  apply (C2_return_forwards_error Examples.pass
           (Examples.funcFile Examples.returnBody)
           (Examples.assignFailErr)
           (mkIdent "err" 11) (mkIdent "err" 31)
           (Examples.assignFailErr
            :: Examples.filePath Examples.returnBody)
           [Examples.println 2 20] 3
           [Examples.ident "fail" 30; Examples.ident "err" 31] []).
  - exists 1, [Examples.ident "fail" 10; Examples.ident "err" 11], DEFINE,
      (Examples.ident "mightFail" 12), []. split; reflexivity.
  - reflexivity.
  - exists 1002, [], [OtherNode "FuncDecl" 1001
                        [BlockStmt 1002 Examples.returnBody];
                      Examples.funcFile Examples.returnBody].
    split; [reflexivity | constructor].
  - intros s o [<-|[]] Ho H. injection Ho as <-.
    apply Inspect_reassigned_iff in H. vm_compute in H. discriminate H.
  - simpl. right. left. reflexivity.
  - reflexivity.
Defined.

(** C2 as stated fails when the statement list is the body of a clause.  In
    [switch { case true: fail, err := mightFail(); return fail, err }] the
    [return] follows the assignment in the same statement list and forwards
    [err], yet part_000, which scans the lists of blocks only, reports the
    assignment. *)
Lemma C2_return_in_clause_body_is_reported :
  Tracked Examples.pass Examples.assignFailErr (mkIdent "err" 11)
  /\ PathEnclosingInterval
       (Examples.funcFile MoreExamples.returnInClauseBody)
       Examples.assignFailErr
     = Some (Examples.assignFailErr :: MoreExamples.caseReturn
             :: BlockStmt 11 [MoreExamples.caseReturn]
             :: OtherNode "SwitchStmt" 10
                  [BlockStmt 11 [MoreExamples.caseReturn]]
             :: Examples.filePath MoreExamples.returnInClauseBody)
  /\ FollowedInBody
       (Examples.assignFailErr :: MoreExamples.caseReturn
        :: BlockStmt 11 [MoreExamples.caseReturn]
        :: OtherNode "SwitchStmt" 10
             [BlockStmt 11 [MoreExamples.caseReturn]]
        :: Examples.filePath MoreExamples.returnInClauseBody)
       Examples.assignFailErr
       [ReturnStmt 3 [Examples.ident "fail" 30; Examples.ident "err" 31]]
  /\ In (IdentExpr (mkIdent "err" 31))
        [Examples.ident "fail" 30; Examples.ident "err" 31]
  /\ ObjectOf Examples.pass (mkIdent "err" 31)
     = ObjectOf Examples.pass (mkIdent "err" 11)
  /\ Part000.visit Examples.pass
       (Examples.funcFile MoreExamples.returnInClauseBody)
       Examples.assignFailErr
     = [mkDiagnostic 11 "error 'err' is not checked or returned"].
Proof.
  split.
  { exists 1, [Examples.ident "fail" 10; Examples.ident "err" 11], DEFINE,
      (Examples.ident "mightFail" 12), []. split; reflexivity. }
  split; [reflexivity|]. split.
  { exists MoreExamples.caseReturn, [],
      (BlockStmt 11 [MoreExamples.caseReturn]
       :: OtherNode "SwitchStmt" 10 [BlockStmt 11 [MoreExamples.caseReturn]]
       :: Examples.filePath MoreExamples.returnInClauseBody).
    split; [reflexivity|]. split; [|constructor].
    right. left. exists 12, [Examples.ident "true" 5]. reflexivity. }
  split; [simpl; right; left; reflexivity|].
  split; reflexivity.
Qed.

(** The pass of src/errcheckif/errcheckif.go has no rule for [return]: on
    [fail, err := mightFail(); fmt.Println(); return fail, err] it reports
    the assignment. *)
Lemma Errcheckif_return_is_reported :
  Errcheckif.run Examples.pass [Examples.funcFile Examples.returnBody]
  = [mkDiagnostic 11
       "error 'err' is not checked with '!= nil', '== nil', 'errors.Is', or 'errors.As'"].
Proof. reflexivity. Qed.

(** ** C3: the initializer of an if statement *)

(** C3.  An error-producing assignment is the initializer of an [if] whose
    condition proves the tracked identifier.  Nothing is reported, whatever
    encloses the [if] and whether or not any statement follows it: the scan
    of the sibling statements is not consulted. *)
Theorem C3_if_initializer
  (pass : Pass) (file assign : Node) (errIdent : Ident)
  (ia : Addr) (cond body : Node) (els : option Node) (outer : list Node) :
  Tracked pass assign errIdent ->
  PathEnclosingInterval file assign
  = Some (assign :: IfStmt ia (Some assign) cond body els :: outer) ->
  checkCondition pass cond errIdent = true ->
  Part000.isHandledInIfInit pass errIdent
    (assign :: IfStmt ia (Some assign) cond body els :: outer) = true
  /\ Part000.visit pass file assign = [].
Proof.
  intros Ht Hpath Hcond.
  assert (Hinit :
    Part000.isHandledInIfInit pass errIdent
      (assign :: IfStmt ia (Some assign) cond body els :: outer) = true).
  { simpl. now rewrite (Tracked_same_node _ _ _ Ht). }
  split; [assumption|].
  rewrite (Part000_visit_tracked _ _ _ _ _ Ht Hpath). now rewrite Hinit.
Qed.

Lemma C3_if_initializer_witness :
  Part000.isHandledInIfInit Examples.pass (mkIdent "err" 11)
    (Examples.assignErr 1 ASSIGN 10
     :: IfStmt 2 (Some (Examples.assignErr 1 ASSIGN 10))
               (Examples.errNeqNil 20) (BlockStmt 3 []) None
     :: Examples.filePath Examples.ifInitBody) = true
  /\ Part000.visit Examples.pass (Examples.funcFile Examples.ifInitBody)
       (Examples.assignErr 1 ASSIGN 10) = [].
Proof.
  apply (C3_if_initializer Examples.pass
           (Examples.funcFile Examples.ifInitBody)
           (Examples.assignErr 1 ASSIGN 10) (mkIdent "err" 11)
           2 (Examples.errNeqNil 20) (BlockStmt 3 []) None
           (Examples.filePath Examples.ifInitBody)).
  - exists 1, [Examples.ident "_" 10; Examples.ident "err" 11], ASSIGN,
      (Examples.ident "mightFail" 12), []. split; reflexivity.
  - reflexivity.
  - reflexivity.
Defined.

(** In that example no statement follows the [if], and the scan of the
    sibling statements alone would not have found a handler. *)
Lemma if_initializer_example_has_no_sibling_handler :
  Part000.isHandledInSubsequentStatement Examples.pass (mkIdent "err" 11)
    (Examples.assignErr 1 ASSIGN 10
     :: IfStmt 2 (Some (Examples.assignErr 1 ASSIGN 10))
               (Examples.errNeqNil 20) (BlockStmt 3 []) None
     :: Examples.filePath Examples.ifInitBody) = false.
Proof. reflexivity. Qed.

(** The pass of src/errcheckif/errcheckif.go has no rule for the
    initializer: it reports [if _, err = mightFail(); err != nil { }]. *)
Lemma Errcheckif_if_initializer_is_reported :
  Errcheckif.run Examples.pass [Examples.funcFile Examples.ifInitBody]
  = [mkDiagnostic 11
       "error 'err' is not checked with '!= nil', '== nil', 'errors.Is', or 'errors.As'"].
Proof. reflexivity. Qed.

(** ** C4: disjunction and conjunction *)

(** C4.  A disjunction proves the target exactly when one of its operands
    does; a conjunction never proves it, whatever its operands. *)
Theorem C4_disjunction_proves_conjunction_is_opaque
  (pass : Pass) (A B : Node) (target : Ident) :
  checkCondition pass (BinaryExpr A LOR B) target
  = (checkCondition pass A target || checkCondition pass B target)
  /\ checkCondition pass (BinaryExpr A LAND B) target = false.
Proof. split; reflexivity. Qed.

(** A conjunction stays opaque even when an operand alone proves the
    target: [err != nil && err != nil]. *)
Lemma conjunction_of_proofs_is_opaque :
  checkCondition Examples.pass (Examples.errNeqNil 20) (mkIdent "err" 11)
  = true
  /\ checkCondition Examples.pass
       (BinaryExpr (Examples.errNeqNil 20) LAND (Examples.errNeqNil 30))
       (mkIdent "err" 11) = false.
Proof. split; reflexivity. Qed.

(** The revision embedded in src/readme.md differs: there a conjunction is
    classified like a disjunction. *)
Lemma Readme_conjunction_like_disjunction
  (pass : Pass) (A B : Node) (target : Ident) :
  Readme.checkCondition pass (BinaryExpr A LAND B) target
  = (Readme.checkCondition pass A target
     || Readme.checkCondition pass B target).
Proof. reflexivity. Qed.

(** ** C5: the bodies of case and select clauses *)

Lemma Readme_getStmtList (node : Node) (l : list Node) :
  StmtListOf node l -> Readme.getStmtList node = l.
Proof. intros [(a & ->)|[(a & e & ->)|(a & c & ->)]]; reflexivity. Qed.

Lemma Readme_scanList_found (pass : Pass) (errIdent : Ident)
  (prev : Node) (before following : list Node) :
  Forall (fun s => same_node s prev = false) before ->
  same_node prev prev = true ->
  Readme.scanList pass errIdent prev (before ++ prev :: following)
  = Some match scanSubsequent
                 (fun s => Readme.isStmtAValidHandler pass s errIdent)
                 pass errIdent following with
         | Some b => b
         | None => false
         end.
Proof.
  intros Hbefore Hrefl. induction Hbefore as [|s before Hs _ IH]; simpl.
  - rewrite Hrefl. now destruct (scanSubsequent _ _ _ following).
  - now rewrite Hs.
Qed.

(** In the revision with [getStmtList], the answer is decided by the
    statements that follow the assignment in its own body, and by nothing
    else on the path. *)
Lemma Readme_body_decides (pass : Pass) (errIdent : Ident)
  (path : list Node) (assign : Node) (following : list Node) :
  Tracked pass assign errIdent ->
  FollowedInBody path assign following ->
  Readme.isHandledInSubsequentStatement pass errIdent path
  = match scanSubsequent
            (fun s => Readme.isStmtAValidHandler pass s errIdent)
            pass errIdent following with
    | Some b => b
    | None => false
    end.
Proof.
  intros Ht (holder & before & outer & -> & Hlist & Hbefore).
  pose proof (Tracked_same_node _ _ _ Ht) as Hrefl.
  pose proof (Readme_scanList_found pass errIdent assign before following
                Hbefore Hrefl) as Hscan.
  unfold Readme.isHandledInSubsequentStatement.
  cbn [Readme.walkPath].
  rewrite (Readme_getStmtList _ _ Hlist).
  destruct (before ++ assign :: following) as [|s l] eqn:Heq.
  - now destruct before.
  - now rewrite Hscan.
Qed.

(** C5, as amended.  For a tracked error assigned in the body of a [case] or
    [select] clause the two scanners differ, and neither searches both the
    clause body and the enclosing scopes.

    In the revision whose scanner knows clause bodies ([getStmtList]), the
    search covers exactly the statements that follow the assignment in its
    body (of a clause or of a block): an [if] that proves the error or a
    [return] that forwards it, later in the same body and not preceded by a
    rebinding, counts as handled; and when no statement after it in that
    body is a handler the error is unhandled, whatever sibling clauses and
    enclosing scopes contain: the search does not continue outward.

    In part_000 the body of a clause is not searched: the answer is the one
    of the search that starts at the clause and walks the enclosing scopes
    outward, and a clause met there, sibling or not, is never a handler. *)
Theorem C5_clause_body_scoping
  (pass : Pass) (errIdent : Ident) (assign : Node) :
  Tracked pass assign errIdent ->
  (forall path following,
      FollowedInBody path assign following ->
      (forall mid h post,
          following = mid ++ h :: post ->
          (forall s o, In s mid -> ObjectOf pass errIdent = Some o ->
                       ~ Rebinds pass o s) ->
          Readme.isStmtAValidHandler pass h errIdent = true ->
          Readme.isHandledInSubsequentStatement pass errIdent path = true)
      /\ ((forall s, In s following ->
                     Readme.isStmtAValidHandler pass s errIdent = false) ->
          Readme.isHandledInSubsequentStatement pass errIdent path = false))
  /\ (forall clause outer,
        IsClause clause ->
        Part000.isStmtAValidHandler pass clause errIdent = false
        /\ Part000.isHandledInSubsequentStatement pass errIdent
             (assign :: clause :: outer)
           = Part000.isHandledInSubsequentStatement pass errIdent
               (clause :: outer)).
Proof.
  intro Ht. split.
  - intros path following Hfol.
    rewrite (Readme_body_decides _ _ _ _ _ Ht Hfol). split.
    + intros mid h post -> Hmid Hh.
      rewrite scanSubsequent_handler; try reflexivity; try assumption.
      intros s Hs. apply not_true_is_false. intro H.
      apply isIdentifierReassigned_iff in H.
      destruct H as (o & Ho & H). exact (Hmid s o Hs Ho H).
    + intro Hnone.
      pose proof (scanSubsequent_no_handler
                    (fun s => Readme.isStmtAValidHandler pass s errIdent)
                    pass errIdent following Hnone) as H.
      destruct (scanSubsequent _ pass errIdent following) as [[|]|];
        congruence.
  - intros clause outer Hclause.
    destruct Ht as (a & Lhs & Tok & F & Args & -> & _).
    destruct Hclause as [(c & e & b & ->)|(c & e & b & ->)];
      split; reflexivity.
Qed.

(** [switch { case true: _, err = mightFail(); if err != nil { } }]: with
    [getStmtList] the handler in the clause body is found. *)
Lemma C5_clause_body_scoping_witness :
  Readme.isHandledInSubsequentStatement Examples.pass (mkIdent "err" 11)
    (Examples.assignErr 1 ASSIGN 10 :: Examples.caseInner
     :: BlockStmt 11 [Examples.caseInner]
     :: OtherNode "SwitchStmt" 10 [BlockStmt 11 [Examples.caseInner]]
     :: Examples.filePath Examples.handlerInClauseBody) = true.
Proof.
  refine (proj1 (proj1 (C5_clause_body_scoping Examples.pass
                          (mkIdent "err" 11)
                          (Examples.assignErr 1 ASSIGN 10) _)
                   _ [Examples.ifEmpty 2 (Examples.errNeqNil 20)] _)
                [] (Examples.ifEmpty 2 (Examples.errNeqNil 20)) []
                eq_refl _ eq_refl).
  - exists 1, [Examples.ident "_" 10; Examples.ident "err" 11], ASSIGN,
      (Examples.ident "mightFail" 12), []. split; reflexivity.
  - exists Examples.caseInner, [],
      (BlockStmt 11 [Examples.caseInner]
       :: OtherNode "SwitchStmt" 10 [BlockStmt 11 [Examples.caseInner]]
       :: Examples.filePath Examples.handlerInClauseBody).
    split; [reflexivity|]. split; [|constructor].
    right. left. exists 12, [Examples.ident "true" 5]. reflexivity.
  - intros s o [].
Defined.

(** C5 as stated fails in each revision.  With [getStmtList] (the revision
    embedded in src/readme.md) the search ends with the clause body: in
    [switch { case true: _, err = mightFail() }; if err != nil { }] the
    handler in the enclosing scope is not found.  Without it (part_000) the
    clause body is not a statement list: in
    [switch { case true: _, err = mightFail(); if err != nil { } }] the
    handler later in the same clause body is not found and the assignment is
    reported. *)
Lemma C5_no_revision_searches_both :
  PathEnclosingInterval (Examples.funcFile Examples.handlerAfterSwitchBody)
    (Examples.assignErr 1 ASSIGN 10)
  = Some (Examples.assignErr 1 ASSIGN 10 :: Examples.caseAlone
          :: BlockStmt 11 [Examples.caseAlone]
          :: OtherNode "SwitchStmt" 10 [BlockStmt 11 [Examples.caseAlone]]
          :: Examples.filePath Examples.handlerAfterSwitchBody)
  /\ Readme.isHandledInSubsequentStatement Examples.pass (mkIdent "err" 11)
       (Examples.assignErr 1 ASSIGN 10 :: Examples.caseAlone
        :: BlockStmt 11 [Examples.caseAlone]
        :: OtherNode "SwitchStmt" 10 [BlockStmt 11 [Examples.caseAlone]]
        :: Examples.filePath Examples.handlerAfterSwitchBody) = false
  /\ PathEnclosingInterval (Examples.funcFile Examples.handlerInClauseBody)
       (Examples.assignErr 1 ASSIGN 10)
     = Some (Examples.assignErr 1 ASSIGN 10 :: Examples.caseInner
             :: BlockStmt 11 [Examples.caseInner]
             :: OtherNode "SwitchStmt" 10 [BlockStmt 11 [Examples.caseInner]]
             :: Examples.filePath Examples.handlerInClauseBody)
  /\ Part000.isHandledInSubsequentStatement Examples.pass (mkIdent "err" 11)
       (Examples.assignErr 1 ASSIGN 10 :: Examples.caseInner
        :: BlockStmt 11 [Examples.caseInner]
        :: OtherNode "SwitchStmt" 10 [BlockStmt 11 [Examples.caseInner]]
        :: Examples.filePath Examples.handlerInClauseBody) = false
  /\ Part000.run Examples.pass
       [Examples.funcFile Examples.handlerInClauseBody]
     = [mkDiagnostic 11 "error 'err' is not checked or returned"].
Proof. repeat split. Qed.

(** part_000 does walk outward: the handler after the [switch] is found. *)
Lemma Part000_handler_after_switch_is_found :
  Part000.run Examples.pass
    [Examples.funcFile Examples.handlerAfterSwitchBody] = [].
Proof. reflexivity. Qed.

(** ** The same rules in the revision embedded in src/readme.md *)

(** There the return rule and the rebinding rule hold in every statement
    list the scanner knows, clause bodies included. *)
Lemma Readme_return_forwards_error
  (pass : Pass) (errIdent retIdent : Ident) (assign : Node)
  (path mid : list Node) (ra : Addr) (results post : list Node) :
  Tracked pass assign errIdent ->
  FollowedInBody path assign (mid ++ ReturnStmt ra results :: post) ->
  (forall s o, In s mid -> ObjectOf pass errIdent = Some o ->
               ~ Rebinds pass o s) ->
  In (IdentExpr retIdent) results ->
  ObjectOf pass retIdent = ObjectOf pass errIdent ->
  Readme.isHandledInSubsequentStatement pass errIdent path = true.
Proof.
  intros Ht Hfol Hmid Hin Heq.
  rewrite (Readme_body_decides _ _ _ _ _ Ht Hfol).
  rewrite scanSubsequent_handler; try reflexivity.
  - intros s Hs. apply not_true_is_false. intro H.
    apply isIdentifierReassigned_iff in H.
    destruct H as (o & Ho & H). exact (Hmid s o Hs Ho H).
  - simpl. apply existsb_exists.
    exists (IdentExpr retIdent). split; [assumption|]. now apply obj_eq_eq.
Qed.

Lemma Readme_rebinding_stops_scan
  (pass : Pass) (errIdent : Ident) (assign : Node) (path : list Node)
  (o : Object) (s1 s2 : Node) (rest : list Node) :
  Tracked pass assign errIdent ->
  FollowedInBody path assign (s1 :: s2 :: rest) ->
  ObjectOf pass errIdent = Some o ->
  Readme.isStmtAValidHandler pass s1 errIdent = false ->
  ~ Rebinds pass o s1 ->
  Readme.isStmtAValidHandler pass s2 errIdent = false ->
  Rebinds pass o s2 ->
  Readme.isHandledInSubsequentStatement pass errIdent path = false.
Proof.
  intros Ht Hfol Ho Hh1 Hr1 Hh2 Hr2.
  rewrite (Readme_body_decides _ _ _ _ _ Ht Hfol).
  cbn [scanSubsequent]. rewrite Hh1.
  assert (isIdentifierReassigned pass s1 errIdent = false) as ->.
  { apply not_true_is_false. intro H.
    apply isIdentifierReassigned_iff in H.
    destruct H as (o' & Heq & H). rewrite Ho in Heq.
    injection Heq as <-. now apply Hr1. }
  rewrite Hh2.
  assert (isIdentifierReassigned pass s2 errIdent = true) as ->.
  { apply isIdentifierReassigned_iff. eauto. }
  reflexivity.
Qed.

(** ** C6: comparison with nil *)

Lemma checkCondition_comparison (pass : Pass) (X Y : Node) (Op : Token)
  (target : Ident) :
  Op = NEQ \/ Op = EQL ->
  checkCondition pass (BinaryExpr X Op Y) target
  = (isIdent pass X target && isNil pass Y
     || isNil pass X && isIdent pass Y target).
Proof.
  intros [->| ->]; simpl;
    destruct (isIdent pass X target && isNil pass Y);
    destruct (isNil pass X && isIdent pass Y target); reflexivity.
Qed.

(** C6, as amended.  A comparison with [!=] or [==] proves the tracked
    error exactly when one operand is an identifier bound to the declaration
    of the target and the other is the predeclared nil, in either order; and
    a tracked error whose next statement in the statement list of its block
    is an [if] with such a condition is not reported.  (The statement list
    has to be that of a block: part_000 does not scan the body of a [case]
    or [select] clause.) *)
Theorem C6_nil_comparison
  (pass : Pass) (X Y : Node) (Op : Token) (target : Ident) :
  Op = NEQ \/ Op = EQL ->
  (checkCondition pass (BinaryExpr X Op Y) target = true <->
   (ResolvesTo pass X target /\ IsNilSentinel pass Y)
   \/ (IsNilSentinel pass X /\ ResolvesTo pass Y target))
  /\ ((ResolvesTo pass X target /\ IsNilSentinel pass Y)
      \/ (IsNilSentinel pass X /\ ResolvesTo pass Y target) ->
      forall (file assign : Node) (path : list Node) (ia : Addr)
             (init : option Node) (body : Node) (els : option Node)
             (post : list Node),
        Tracked pass assign target ->
        PathEnclosingInterval file assign = Some path ->
        FollowedInBlock path assign
          (IfStmt ia init (BinaryExpr X Op Y) body els :: post) ->
        Part000.visit pass file assign = []).
Proof.
  intro HOp.
  assert (Hiff :
    checkCondition pass (BinaryExpr X Op Y) target = true <->
    (ResolvesTo pass X target /\ IsNilSentinel pass Y)
    \/ (IsNilSentinel pass X /\ ResolvesTo pass Y target)).
  { rewrite (checkCondition_comparison _ _ _ _ _ HOp).
    rewrite orb_true_iff, !andb_true_iff, !isIdent_iff, !isNil_iff.
    reflexivity. }
  split; [exact Hiff|].
  intros Hcmp file assign path ia init body els post Ht Hpath Hfol.
  apply Hiff in Hcmp.
  assert (Hhandled :
    Part000.isHandledInSubsequentStatement pass target path = true).
  { apply (Part000_scan_decides _ _ _ _ _ _ Ht Hfol).
    cbn [scanSubsequent Part000.isStmtAValidHandler]. now rewrite Hcmp. }
  rewrite (Part000_visit_tracked _ _ _ _ _ Ht Hpath).
  rewrite (Part000_not_if_init _ _ _ _ _ Hfol), Hhandled. reflexivity.
Qed.

Lemma C6_nil_comparison_witness :
  (checkCondition Examples.pass (Examples.errEqlNil 20) (mkIdent "err" 11)
   = true <->
   (ResolvesTo Examples.pass (Examples.ident "err" 20) (mkIdent "err" 11)
    /\ IsNilSentinel Examples.pass (Examples.ident "nil" 21))
   \/ (IsNilSentinel Examples.pass (Examples.ident "err" 20)
       /\ ResolvesTo Examples.pass (Examples.ident "nil" 21)
            (mkIdent "err" 11)))
  /\ Part000.visit Examples.pass (Examples.funcFile Examples.eqlNilBody)
       (Examples.assignErr 1 DEFINE 10) = [].
Proof.
  destruct (C6_nil_comparison Examples.pass (Examples.ident "err" 20)
              (Examples.ident "nil" 21) EQL (mkIdent "err" 11)
              (or_intror eq_refl)) as [Hiff Hvisit].
  split; [exact Hiff|].
  apply (Hvisit
           (or_introl
              (conj (ex_intro _ (mkIdent "err" 20) (conj eq_refl eq_refl))
                    (ex_intro _ (mkIdent "nil" 21) (conj eq_refl eq_refl))))
           (Examples.funcFile Examples.eqlNilBody)
           (Examples.assignErr 1 DEFINE 10)
           (Examples.assignErr 1 DEFINE 10
            :: Examples.filePath Examples.eqlNilBody)
           2 None (BlockStmt 3 []) None []).
  - exists 1, [Examples.ident "_" 10; Examples.ident "err" 11], DEFINE,
      (Examples.ident "mightFail" 12), []. split; reflexivity.
  - reflexivity.
  - exists 1002, [], [OtherNode "FuncDecl" 1001
                        [BlockStmt 1002 Examples.eqlNilBody];
                      Examples.funcFile Examples.eqlNilBody].
    split; [reflexivity | constructor].
Defined.

(** C6 as stated fails when the scope is the body of a clause.  In
    [switch { case true: _, err = mightFail(); if err != nil { } }] the
    assignment is immediately followed in its scope by [if err != nil],
    whose condition proves [err], yet part_000, which scans the lists of
    blocks only, reports the assignment. *)
Lemma C6_nil_check_in_clause_body_is_reported :
  Tracked Examples.pass (Examples.assignErr 1 ASSIGN 10) (mkIdent "err" 11)
  /\ PathEnclosingInterval
       (Examples.funcFile Examples.handlerInClauseBody)
       (Examples.assignErr 1 ASSIGN 10)
     = Some (Examples.assignErr 1 ASSIGN 10 :: Examples.caseInner
             :: BlockStmt 11 [Examples.caseInner]
             :: OtherNode "SwitchStmt" 10 [BlockStmt 11 [Examples.caseInner]]
             :: Examples.filePath Examples.handlerInClauseBody)
  /\ FollowedInBody
       (Examples.assignErr 1 ASSIGN 10 :: Examples.caseInner
        :: BlockStmt 11 [Examples.caseInner]
        :: OtherNode "SwitchStmt" 10 [BlockStmt 11 [Examples.caseInner]]
        :: Examples.filePath Examples.handlerInClauseBody)
       (Examples.assignErr 1 ASSIGN 10)
       [IfStmt 2 None
               (BinaryExpr (Examples.ident "err" 20) NEQ
                           (Examples.ident "nil" 21))
               (BlockStmt 3 []) None]
  /\ ResolvesTo Examples.pass (Examples.ident "err" 20) (mkIdent "err" 11)
  /\ IsNilSentinel Examples.pass (Examples.ident "nil" 21)
  /\ checkCondition Examples.pass
       (BinaryExpr (Examples.ident "err" 20) NEQ (Examples.ident "nil" 21))
       (mkIdent "err" 11) = true
  /\ Part000.visit Examples.pass
       (Examples.funcFile Examples.handlerInClauseBody)
       (Examples.assignErr 1 ASSIGN 10)
     = [mkDiagnostic 11 "error 'err' is not checked or returned"].
Proof.
  split.
  { exists 1, [Examples.ident "_" 10; Examples.ident "err" 11], ASSIGN,
      (Examples.ident "mightFail" 12), []. split; reflexivity. }
  split; [reflexivity|]. split.
  { exists Examples.caseInner, [],
      (BlockStmt 11 [Examples.caseInner]
       :: OtherNode "SwitchStmt" 10 [BlockStmt 11 [Examples.caseInner]]
       :: Examples.filePath Examples.handlerInClauseBody).
    split; [reflexivity|]. split; [|constructor].
    right. left. exists 12, [Examples.ident "true" 5]. reflexivity. }
  split; [exists (mkIdent "err" 20); split; reflexivity|].
  split; [exists (mkIdent "nil" 21); split; reflexivity|].
  split; reflexivity.
Qed.

(** ** C7 and C8: the detector of error-producing assignments *)

(** The loop returns nothing when no error-capable result position is bound
    to a non-blank identifier. *)
Lemma findReturnedError_loop_none (pass : Pass) (Lhs : list Node)
  (results : list GoType) :
  forall i,
    (forall j t ident,
        nth_error results j = Some t -> Implements pass t = true ->
        nth_error Lhs (i + j) = Some (IdentExpr ident) -> Name ident = "_") ->
    findReturnedError_loop pass Lhs results i = None.
Proof.
  induction results as [|t results IH]; intros i H; simpl; [reflexivity|].
  assert (Hrest : findReturnedError_loop pass Lhs results (S i) = None).
  { apply IH. intros j t' ident Hj Ht' Hl.
    apply (H (S j) t' ident); try assumption.
    now rewrite Nat.add_succ_r. }
  destruct (Implements pass t) eqn:Himpl; [|assumption].
  destruct (nth_error Lhs i) as [[ident| | | | | | | | | |]|] eqn:Hl;
    try assumption.
  rewrite (H 0 t ident eq_refl Himpl); [assumption|].
  now rewrite Nat.add_0_r.
Qed.

(** The loop returns the identifier at the first error-capable result
    position that is bound to a non-blank identifier. *)
Lemma findReturnedError_loop_first (pass : Pass) (Lhs : list Node)
  (before : list GoType) (t : GoType) (after : list GoType) (ident : Ident) :
  forall i,
    (forall j t' ident',
        nth_error before j = Some t' -> Implements pass t' = true ->
        nth_error Lhs (i + j) = Some (IdentExpr ident') ->
        Name ident' = "_") ->
    Implements pass t = true ->
    nth_error Lhs (i + List.length before) = Some (IdentExpr ident) ->
    Name ident <> "_" ->
    findReturnedError_loop pass Lhs (before ++ t :: after) i = Some ident.
Proof.
  induction before as [|t0 before IH]; intros i H Himpl Hl Hname; simpl.
  - rewrite Himpl. simpl in Hl. rewrite Nat.add_0_r in Hl. rewrite Hl.
    apply String.eqb_neq in Hname. now rewrite Hname.
  - assert (Hrest :
      findReturnedError_loop pass Lhs (before ++ t :: after) (S i)
      = Some ident).
    { apply IH; try assumption.
      - intros j t' ident' Hj Ht' Hl'.
        apply (H (S j) t' ident'); try assumption.
        now rewrite Nat.add_succ_r.
      - simpl in Hl. now rewrite Nat.add_succ_r in Hl. }
    destruct (Implements pass t0) eqn:Himpl0; [|assumption].
    destruct (nth_error Lhs i) as [[ident0| | | | | | | | | |]|] eqn:Hl0;
      try assumption.
    rewrite (H 0 t0 ident0 eq_refl Himpl0); [assumption|].
    now rewrite Nat.add_0_r.
Qed.

Lemma findReturnedError_signature (pass : Pass) (a : Addr)
  (Lhs : list Node) (Tok : Token) (Rhs : list Node) (Fun : Node)
  (Args : list Node) (results : list GoType) :
  TypeOf pass Fun = Some (Signature results) ->
  findReturnedError pass (AssignStmt a Lhs Tok Rhs) (CallExpr Fun Args)
  = findReturnedError_loop pass Lhs results 0.
Proof.
  intro Hsig. unfold findReturnedError. rewrite Hsig.
  destruct results; reflexivity.
Qed.

Lemma Part000_visit_untracked (pass : Pass) (file : Node) (a : Addr)
  (Lhs : list Node) (Tok : Token) (Fun : Node) (Args : list Node) :
  findReturnedError pass (AssignStmt a Lhs Tok [CallExpr Fun Args])
                    (CallExpr Fun Args) = None ->
  Part000.visit pass file (AssignStmt a Lhs Tok [CallExpr Fun Args]) = [].
Proof. intro H. unfold Part000.visit. now rewrite H. Qed.

(** C7, as amended.  The assignment has a single call on its right-hand
    side.  When the left-hand target at the index of every error-capable
    result position is the discard placeholder, the detector returns no
    tracked identifier and nothing is reported.  A placeholder at the first
    error-capable position does not end the search: the detector returns the
    identifier at the first error-capable position whose target is a
    non-blank identifier. *)
Theorem C7_discarded_error_positions
  (pass : Pass) (file : Node) (a : Addr) (Lhs : list Node) (Tok : Token)
  (Fun : Node) (Args : list Node) (results : list GoType) :
  TypeOf pass Fun = Some (Signature results) ->
  ((forall i t,
       nth_error results i = Some t -> Implements pass t = true ->
       exists blank,
         nth_error Lhs i = Some (IdentExpr blank) /\ Name blank = "_") ->
   findReturnedError pass (AssignStmt a Lhs Tok [CallExpr Fun Args])
                     (CallExpr Fun Args) = None
   /\ Part000.visit pass file (AssignStmt a Lhs Tok [CallExpr Fun Args]) = [])
  /\ (forall i t ident,
        nth_error results i = Some t -> Implements pass t = true ->
        nth_error Lhs i = Some (IdentExpr ident) -> Name ident <> "_" ->
        (forall j t',
            j < i -> nth_error results j = Some t' ->
            Implements pass t' = true ->
            exists blank,
              nth_error Lhs j = Some (IdentExpr blank) /\ Name blank = "_") ->
        findReturnedError pass (AssignStmt a Lhs Tok [CallExpr Fun Args])
                          (CallExpr Fun Args) = Some ident).
Proof.
  intro Hsig. split.
  - intro Hall.
    assert (Hnone :
      findReturnedError pass (AssignStmt a Lhs Tok [CallExpr Fun Args])
                        (CallExpr Fun Args) = None).
    { rewrite (findReturnedError_signature _ _ _ _ _ _ _ _ Hsig).
      apply findReturnedError_loop_none. intros j t ident Hj Ht Hl.
      destruct (Hall j t Hj Ht) as (blank & Hb & Hname).
      simpl in Hl. rewrite Hb in Hl. now injection Hl as <-. }
    split; [assumption|]. now apply Part000_visit_untracked.
  - intros i t ident Hi Ht Hl Hname Hbefore.
    rewrite (findReturnedError_signature _ _ _ _ _ _ _ _ Hsig).
    destruct (nth_error_split results i Hi) as (before & after & -> & Hlen).
    apply findReturnedError_loop_first; try assumption.
    + intros j t' ident' Hj Ht' Hl'. simpl in Hl'.
      assert (Hlt : j < i).
      { rewrite <- Hlen. apply nth_error_Some. now rewrite Hj. }
      destruct (Hbefore j t' Hlt) as (blank & Hb & Hbn); try assumption.
      * rewrite nth_error_app1; [assumption|]. now rewrite Hlen.
      * rewrite Hb in Hl'. now injection Hl' as <-.
    + simpl. now rewrite Hlen.
Qed.

(** [_, _ = mightFail()]: nothing is tracked. *)
Lemma C7_discarded_error_positions_witness :
  findReturnedError Examples.pass Examples.assignDiscardAll
    (CallExpr (Examples.ident "mightFail" 12) []) = None
  /\ Part000.visit Examples.pass
       (Examples.funcFile [Examples.assignDiscardAll])
       Examples.assignDiscardAll = [].
Proof.
  apply (C7_discarded_error_positions Examples.pass
           (Examples.funcFile [Examples.assignDiscardAll]) 1
           [Examples.ident "_" 10; Examples.ident "_" 11] ASSIGN
           (Examples.ident "mightFail" 12) []
           [TypeName "int"; TypeName "error"]).
  - reflexivity.
  - intros [|[|[|i]]] t Hi Ht; simpl in Hi; try discriminate Hi.
    + injection Hi as <-. discriminate Ht.
    + exists (mkIdent "_" 11). split; reflexivity.
Defined.

(** C7 as stated fails when a later result is error-capable too.  In
    [_, err := twoErrors()] with [twoErrors] a [func() (error, error)], the
    first error-capable position is 0 and its target is the placeholder, yet
    the detector returns [err] and the assignment is reported. *)
Lemma C7_blank_at_first_error_position_is_not_final :
  TypeOf Examples.pass (Examples.ident "twoErrors" 12)
  = Some (Signature [TypeName "error"; TypeName "error"])
  /\ Implements Examples.pass (TypeName "error") = true
  /\ nth_error [Examples.ident "_" 10; Examples.ident "err" 11] 0
     = Some (IdentExpr (mkIdent "_" 10))
  /\ findReturnedError Examples.pass Examples.assignTwoErrors
       (CallExpr (Examples.ident "twoErrors" 12) [])
     = Some (mkIdent "err" 11)
  /\ Part000.visit Examples.pass
       (Examples.funcFile [Examples.assignTwoErrors])
       Examples.assignTwoErrors
     = [mkDiagnostic 11 "error 'err' is not checked or returned"].
Proof. repeat split. Qed.

(** C8, as amended.  The detector does not compare the number of left-hand
    sides with the number of results; it skips an error-capable result
    position only when its index is not below the number of left-hand sides.
    So when the two counts differ and every error-capable result position
    lies at or beyond the number of left-hand sides, no identifier is
    tracked and nothing is reported; and when the first error-capable
    position lies inside the left-hand range and its target is a non-blank
    identifier, that identifier is returned, taken by index, whether or not
    the counts agree. *)
Theorem C8_error_position_beyond_targets
  (pass : Pass) (file : Node) (a : Addr) (Lhs : list Node) (Tok : Token)
  (Fun : Node) (Args : list Node) (results : list GoType) :
  TypeOf pass Fun = Some (Signature results) ->
  (List.length Lhs <> List.length results ->
   (forall i t,
       nth_error results i = Some t -> Implements pass t = true ->
       List.length Lhs <= i) ->
   findReturnedError pass (AssignStmt a Lhs Tok [CallExpr Fun Args])
                     (CallExpr Fun Args) = None
   /\ Part000.visit pass file (AssignStmt a Lhs Tok [CallExpr Fun Args]) = [])
  /\ (forall i t ident,
        nth_error results i = Some t -> Implements pass t = true ->
        (forall j t', j < i -> nth_error results j = Some t' ->
                      Implements pass t' = false) ->
        nth_error Lhs i = Some (IdentExpr ident) -> Name ident <> "_" ->
        findReturnedError pass (AssignStmt a Lhs Tok [CallExpr Fun Args])
                          (CallExpr Fun Args) = Some ident).
Proof.
  intro Hsig. split.
  - intros _ Hbeyond.
    assert (Hnone :
      findReturnedError pass (AssignStmt a Lhs Tok [CallExpr Fun Args])
                        (CallExpr Fun Args) = None).
    { rewrite (findReturnedError_signature _ _ _ _ _ _ _ _ Hsig).
      apply findReturnedError_loop_none. intros j t ident Hj Ht Hl.
      simpl in Hl. pose proof (Hbeyond j t Hj Ht) as Hle.
      apply nth_error_None in Hle. rewrite Hle in Hl. discriminate Hl. }
    split; [assumption|]. now apply Part000_visit_untracked.
  - intros i t ident Hi Ht Hfirst Hl Hname.
    rewrite (findReturnedError_signature _ _ _ _ _ _ _ _ Hsig).
    destruct (nth_error_split results i Hi) as (before & after & -> & Hlen).
    apply findReturnedError_loop_first; try assumption.
    + intros j t' ident' Hj Ht' _.
      assert (Hlt : j < i).
      { rewrite <- Hlen. apply nth_error_Some. now rewrite Hj. }
      rewrite (Hfirst j t' Hlt) in Ht'; [discriminate Ht'|].
      rewrite nth_error_app1; [assumption|]. now rewrite Hlen.
    + simpl. now rewrite Hlen.
Qed.

(** [fail := mightFail()]: the error-capable position 1 has no target. *)
Lemma C8_error_position_beyond_targets_witness :
  findReturnedError Examples.pass Examples.assignShort
    (CallExpr (Examples.ident "mightFail" 11) []) = None
  /\ Part000.visit Examples.pass (Examples.funcFile [Examples.assignShort])
       Examples.assignShort = [].
Proof.
  apply (C8_error_position_beyond_targets Examples.pass
           (Examples.funcFile [Examples.assignShort]) 1
           [Examples.ident "fail" 10] DEFINE
           (Examples.ident "mightFail" 11) []
           [TypeName "int"; TypeName "error"]).
  - reflexivity.
  - simpl. lia.
  - intros [|[|[|i]]] t Hi Ht; simpl in Hi; try discriminate Hi.
    + injection Hi as <-. discriminate Ht.
    + simpl. lia.
Defined.

(** C8 as stated fails when an error-capable position lies inside the
    left-hand range.  In [err := errorFirst()] with [errorFirst] a
    [func() (error, int)] there is one target for two results, yet the
    detector returns [err], taken by index, and the assignment is
    reported. *)
Lemma C8_count_mismatch_is_still_tracked :
  TypeOf Examples.pass (Examples.ident "errorFirst" 11)
  = Some (Signature [TypeName "error"; TypeName "int"])
  /\ List.length [Examples.ident "err" 10]
     <> List.length [TypeName "error"; TypeName "int"]
  /\ findReturnedError Examples.pass Examples.assignErrorFirst
       (CallExpr (Examples.ident "errorFirst" 11) [])
     = Some (mkIdent "err" 10)
  /\ Part000.visit Examples.pass
       (Examples.funcFile [Examples.assignErrorFirst])
       Examples.assignErrorFirst
     = [mkDiagnostic 10 "error 'err' is not checked or returned"].
Proof. repeat split. simpl. lia. Qed.

(** ** C9: the diagnostic *)

(** C9.  For a tracked error whose handling is proved neither by the
    if-initializer rule nor by the scan, exactly one diagnostic is reported,
    at the position of the tracked identifier, with the text
    [error '<name>' is not checked or returned]. *)
Theorem C9_one_diagnostic_at_identifier
  (pass : Pass) (file assign : Node) (errIdent : Ident) (path : list Node) :
  Tracked pass assign errIdent ->
  PathEnclosingInterval file assign = Some path ->
  Part000.isHandledInIfInit pass errIdent path = false ->
  Part000.isHandledInSubsequentStatement pass errIdent path = false ->
  Part000.visit pass file assign
  = [ {| DPos := NamePos errIdent;
         Message := "error '" ++ Name errIdent
                    ++ "' is not checked or returned" |} ].
Proof.
  intros Ht Hpath Hinit Hscan.
  rewrite (Part000_visit_tracked _ _ _ _ _ Ht Hpath).
  now rewrite Hinit, Hscan.
Qed.

Lemma C9_one_diagnostic_at_identifier_witness :
  Part000.visit Examples.pass (Examples.funcFile Examples.uncheckedBody)
    (Examples.assignErr 1 DEFINE 10)
  = [ {| DPos := 11; Message := "error 'err' is not checked or returned" |} ].
Proof.
  apply (C9_one_diagnostic_at_identifier Examples.pass
           (Examples.funcFile Examples.uncheckedBody)
           (Examples.assignErr 1 DEFINE 10) (mkIdent "err" 11)
           (Examples.assignErr 1 DEFINE 10
            :: Examples.filePath Examples.uncheckedBody)).
  - exists 1, [Examples.ident "_" 10; Examples.ident "err" 11], DEFINE,
      (Examples.ident "mightFail" 12), []. split; reflexivity.
  - reflexivity.
  - reflexivity.
  - reflexivity.
Defined.

(** On a whole file: one diagnostic for the unchecked assignment. *)
Lemma run_reports_unchecked_assignment :
  Part000.run Examples.pass [Examples.funcFile Examples.uncheckedBody]
  = [ {| DPos := 11; Message := "error 'err' is not checked or returned" |} ].
Proof. reflexivity. Qed.

(** The pass of src/errcheckif/errcheckif.go words its diagnostic
    differently. *)
Lemma Errcheckif_message
  (pass : Pass) (file assign : Node) (errIdent : Ident) (path : list Node) :
  Tracked pass assign errIdent ->
  PathEnclosingInterval file assign = Some path ->
  Errcheckif.isErrorHandled pass errIdent path = false ->
  Errcheckif.visit pass file assign
  = [ {| DPos := NamePos errIdent;
         Message := "error '" ++ Name errIdent
                    ++ "' is not checked with '!= nil', '== nil', 'errors.Is', or 'errors.As'" |} ].
Proof.
  intros (a & Lhs & Tok & F & Args & -> & Hfind) Hpath Hscan.
  unfold Errcheckif.visit. now rewrite Hfind, Hpath, Hscan.
Qed.

(** ** C10: the errors helpers are recognised by name *)

(** C10.  A call [X.Is(...)] or [X.As(...)] whose qualifier [X] is an
    identifier named [errors] proves the target as soon as its first
    argument is an identifier bound to the declaration of the target; the
    declaration the qualifier is bound to plays no part.  The nil sentinel,
    in contrast, is recognised by the declaration it is bound to and not by
    its name. *)
Theorem C10_errors_helpers_by_name
  (pass : Pass) (pkgIdent Sel : Ident) (arg0 : Node) (args : list Node)
  (target : Ident) :
  Name pkgIdent = "errors" ->
  Name Sel = "Is" \/ Name Sel = "As" ->
  ResolvesTo pass arg0 target ->
  checkCondition pass
    (CallExpr (SelectorExpr (IdentExpr pkgIdent) Sel) (arg0 :: args)) target
  = true
  /\ (forall ident,
        isNil pass (IdentExpr ident) = true <->
        ObjectOf pass ident = Some Universe_nil).
Proof.
  intros Hpkg Hsel Harg. split.
  - simpl. rewrite Hpkg. simpl.
    assert (negb (String.eqb (Name Sel) "Is")
            && negb (String.eqb (Name Sel) "As") = false) as ->.
    { destruct Hsel as [-> | ->]; reflexivity. }
    now apply isIdent_iff.
  - intro ident. simpl. apply obj_eq_eq.
Qed.

(** [errors.Is(err, target)] where [errors] is a local variable. *)
Lemma C10_errors_helpers_by_name_witness :
  ObjectOf Examples.shadowPass (mkIdent "errors" 20) = Some (Declared 50)
  /\ checkCondition Examples.shadowPass (Examples.errorsIs 20)
       (mkIdent "err" 11) = true.
Proof.
  split; [reflexivity|].
  apply (C10_errors_helpers_by_name Examples.shadowPass
           (mkIdent "errors" 20) (mkIdent "Is" 21) (Examples.ident "err" 22)
           [Examples.ident "target" 23] (mkIdent "err" 11)).
  - reflexivity.
  - left. reflexivity.
  - exists (mkIdent "err" 22). split; reflexivity.
Defined.

(** An identifier named [nil] that is bound to a local variable is not the
    nil sentinel: [err != nil] proves nothing in that scope. *)
Lemma shadowed_nil_is_not_the_sentinel :
  isNil Examples.shadowPass (Examples.ident "nil" 21) = false
  /\ checkCondition Examples.shadowPass (Examples.errNeqNil 20)
       (mkIdent "err" 11) = false.
Proof. split; reflexivity. Qed.

(** ** Further properties: the condition classifier *)

Lemma errors_call_accepts (pass : Pass) (pkgIdent Sel : Ident)
  (Args : list Node) (target : Ident) :
  (if negb (String.eqb (Name pkgIdent) "errors") then false
   else if negb (String.eqb (Name Sel) "Is")
           && negb (String.eqb (Name Sel) "As") then false
   else match Args with
        | arg0 :: _ => isIdent pass arg0 target
        | [] => false
        end) = true ->
  Name pkgIdent = "errors"
  /\ (Name Sel = "Is" \/ Name Sel = "As")
  /\ exists arg0 args, Args = arg0 :: args /\ ResolvesTo pass arg0 target.
Proof.
  destruct (String.eqb (Name pkgIdent) "errors") eqn:Hpkg; simpl;
    [|discriminate].
  destruct (String.eqb (Name Sel) "Is") eqn:His;
    destruct (String.eqb (Name Sel) "As") eqn:Has; simpl;
    try discriminate;
    (destruct Args as [|arg0 args]; [discriminate|]);
    intro H; apply isIdent_iff in H; apply String.eqb_eq in Hpkg;
    (split; [assumption|]); (split; [|eauto]).
  - left. now apply String.eqb_eq.
  - left. now apply String.eqb_eq.
  - right. now apply String.eqb_eq.
Qed.

Lemma errors_call_accepted (pass : Pass) (pkgIdent Sel : Ident)
  (arg0 : Node) (args : list Node) (target : Ident) :
  Name pkgIdent = "errors" ->
  Name Sel = "Is" \/ Name Sel = "As" ->
  ResolvesTo pass arg0 target ->
  (if negb (String.eqb (Name pkgIdent) "errors") then false
   else if negb (String.eqb (Name Sel) "Is")
           && negb (String.eqb (Name Sel) "As") then false
   else isIdent pass arg0 target) = true.
Proof.
  intros -> Hsel Harg. simpl.
  assert (negb (String.eqb (Name Sel) "Is")
          && negb (String.eqb (Name Sel) "As") = false) as ->.
  { destruct Hsel as [-> | ->]; reflexivity. }
  now apply isIdent_iff.
Qed.

Lemma comparison_accepts (pass : Pass) (X Y : Node) (target : Ident) :
  (if isIdent pass X target && isNil pass Y then true
   else if isNil pass X && isIdent pass Y target then true else false) = true
  <-> (ResolvesTo pass X target /\ IsNilSentinel pass Y)
      \/ (IsNilSentinel pass X /\ ResolvesTo pass Y target).
Proof.
  rewrite <- !isIdent_iff, <- !isNil_iff, <- !andb_true_iff, <- orb_true_iff.
  destruct (isIdent pass X target && isNil pass Y);
    destruct (isNil pass X && isIdent pass Y target); simpl; tauto.
Qed.

Lemma checkCondition_Proves (pass : Pass) (cond : Node) (target : Ident) :
  checkCondition pass cond target = true <-> Proves pass target cond.
Proof.
  split.
  - induction cond as [cond IH] using Node_children_ind.
    destruct cond; try discriminate.
    + (* BinaryExpr *)
      simpl in IH. inversion IH as [|? ? HX IH']; subst.
      inversion IH' as [|? ? HY _]; subst.
      destruct Op; try discriminate; simpl.
      * rewrite orb_true_iff. intros [H|H].
        -- apply Proves_or_left. now apply HX.
        -- apply Proves_or_right. now apply HY.
      * intro H. apply Proves_comparison; [now right|].
        now apply comparison_accepts.
      * intro H. apply Proves_comparison; [now left|].
        now apply comparison_accepts.
    + (* CallExpr *)
      simpl. destruct cond as [| | |selX Sel| | | | | | |]; try discriminate.
      destruct selX as [pkgIdent| | | | | | | | | |]; try discriminate.
      intro H. apply (errors_call_accepts pass pkgIdent Sel Args target)
        in H.
      destruct H as (Hpkg & Hsel & arg0 & args & -> & Harg).
      now apply Proves_errors_call.
  - induction 1 as [X Y _ IH|X Y _ IH|X Op Y HOp Hcmp
                    |pkgIdent Sel arg0 args Hpkg Hsel Harg].
    + simpl. now rewrite IH.
    + simpl. rewrite IH. apply orb_true_r.
    + rewrite (checkCondition_comparison _ _ _ _ _ HOp).
      rewrite orb_true_iff, !andb_true_iff, !isIdent_iff, !isNil_iff.
      exact Hcmp.
    + simpl. now apply errors_call_accepted.
Qed.

Lemma Readme_checkCondition_ProvesReadme (pass : Pass) (cond : Node)
  (target : Ident) :
  Readme.checkCondition pass cond target = true
  <-> ProvesReadme pass target cond.
Proof.
  split.
  - induction cond as [cond IH] using Node_children_ind.
    destruct cond; try discriminate.
    + simpl in IH. inversion IH as [|? ? HX IH']; subst.
      inversion IH' as [|? ? HY _]; subst.
      destruct Op; try discriminate; simpl.
      * rewrite orb_true_iff. intros [H|H].
        -- apply ProvesReadme_left; [now left|]. now apply HX.
        -- apply ProvesReadme_right; [now left|]. now apply HY.
      * rewrite orb_true_iff. intros [H|H].
        -- apply ProvesReadme_left; [now right|]. now apply HX.
        -- apply ProvesReadme_right; [now right|]. now apply HY.
      * intro H. apply ProvesReadme_comparison; [now right|].
        now apply comparison_accepts.
      * intro H. apply ProvesReadme_comparison; [now left|].
        now apply comparison_accepts.
    + simpl. destruct cond as [| | |selX Sel| | | | | | |]; try discriminate.
      destruct selX as [pkgIdent| | | | | | | | | |]; try discriminate.
      intro H. apply (errors_call_accepts pass pkgIdent Sel Args target)
        in H.
      destruct H as (Hpkg & Hsel & arg0 & args & -> & Harg).
      now apply ProvesReadme_errors_call.
  - induction 1 as [X Op Y HOp _ IH|X Op Y HOp _ IH|X Op Y HOp Hcmp
                    |pkgIdent Sel arg0 args Hpkg Hsel Harg].
    + destruct HOp as [-> | ->]; simpl; now rewrite IH.
    + destruct HOp as [-> | ->]; simpl; rewrite IH; apply orb_true_r.
    + destruct HOp as [-> | ->]; simpl; now apply comparison_accepts.
    + simpl. now apply errors_call_accepted.
Qed.

Lemma Proves_ProvesReadme (pass : Pass) (target : Ident) (cond : Node) :
  Proves pass target cond -> ProvesReadme pass target cond.
Proof.
  induction 1.
  - apply ProvesReadme_left; [now left | assumption].
  - apply ProvesReadme_right; [now left | assumption].
  - now apply ProvesReadme_comparison.
  - now apply ProvesReadme_errors_call.
Qed.

(** X1.  [checkCondition] accepts exactly the conditions built from
    comparisons of the target with nil ([!=] or [==], either order) and
    calls [errors.Is]/[errors.As] on the target, combined by [||]; every
    other expression (a conjunction, a negation, a parenthesised
    expression, another comparison, another call) is rejected. *)
Theorem checkCondition_accepts_exactly
  (pass : Pass) (cond : Node) (target : Ident) :
  (checkCondition pass cond target = true -> Proves pass target cond)
  /\ (Proves pass target cond -> checkCondition pass cond target = true).
Proof.
  split; intro H.
  - now apply checkCondition_Proves.
  - now apply checkCondition_Proves.
Qed.

Lemma checkCondition_accepts_exactly_witness :
  Proves Examples.pass (mkIdent "err" 11)
    (BinaryExpr (Examples.ident "ok" 5) LOR (Examples.errorsIs 20)).
Proof.
  apply (proj1 (checkCondition_accepts_exactly Examples.pass
                  (BinaryExpr (Examples.ident "ok" 5) LOR
                              (Examples.errorsIs 20))
                  (mkIdent "err" 11))).
  reflexivity.
Defined.

(** X2.  The classifier of the revision embedded in src/readme.md accepts
    exactly the same atoms, combined by [||] and [&&] alike: there a
    conjunction counts as a check as soon as one operand does. *)
Theorem Readme_checkCondition_accepts_exactly
  (pass : Pass) (cond : Node) (target : Ident) :
  (Readme.checkCondition pass cond target = true ->
   ProvesReadme pass target cond)
  /\ (ProvesReadme pass target cond ->
      Readme.checkCondition pass cond target = true).
Proof.
  split; intro H.
  - now apply Readme_checkCondition_ProvesReadme.
  - now apply Readme_checkCondition_ProvesReadme.
Qed.

Lemma Readme_checkCondition_accepts_exactly_witness :
  Readme.checkCondition Examples.pass
    (BinaryExpr (Examples.ident "ok" 5) LAND (Examples.errNeqNil 20))
    (mkIdent "err" 11) = true.
Proof.
  apply (proj2 (Readme_checkCondition_accepts_exactly Examples.pass
                  (BinaryExpr (Examples.ident "ok" 5) LAND
                              (Examples.errNeqNil 20))
                  (mkIdent "err" 11))).
  apply ProvesReadme_right; [now right|].
  apply ProvesReadme_comparison; [now left|]. left. split.
  - exists (mkIdent "err" 20). split; reflexivity.
  - exists (mkIdent "nil" 21). split; reflexivity.
Defined.

(** X3.  Every condition that counts as a check in part_000 (and in
    errcheckif.go, same classifier) counts as one in the revision embedded
    in src/readme.md: that revision only accepts more. *)
Theorem Readme_checkCondition_accepts_more
  (pass : Pass) (cond : Node) (target : Ident) :
  checkCondition pass cond target = true ->
  Readme.checkCondition pass cond target = true.
Proof.
  intro H. apply Readme_checkCondition_ProvesReadme.
  apply Proves_ProvesReadme. now apply checkCondition_Proves.
Qed.

Lemma Readme_checkCondition_accepts_more_witness :
  Readme.checkCondition Examples.pass
    (BinaryExpr (Examples.ident "ok" 5) LOR (Examples.errorsIs 20))
    (mkIdent "err" 11) = true.
Proof.
  apply (Readme_checkCondition_accepts_more Examples.pass
           (BinaryExpr (Examples.ident "ok" 5) LOR (Examples.errorsIs 20))
           (mkIdent "err" 11)).
  reflexivity.
Defined.

(** ** Further properties: the detector *)

Lemma findReturnedError_loop_sound (pass : Pass) (Lhs : list Node)
  (results : list GoType) (ident : Ident) :
  forall i0,
    findReturnedError_loop pass Lhs results i0 = Some ident ->
    exists k t,
      nth_error results k = Some t
      /\ Implements pass t = true
      /\ nth_error Lhs (i0 + k) = Some (IdentExpr ident)
      /\ Name ident <> "_"
      /\ forall j t' ident',
           j < k -> nth_error results j = Some t' ->
           Implements pass t' = true ->
           nth_error Lhs (i0 + j) = Some (IdentExpr ident') ->
           Name ident' = "_".
Proof.
  induction results as [|t results IH]; intros i0 H; simpl in H;
    [discriminate|].
  assert (Hrest :
    findReturnedError_loop pass Lhs results (S i0) = Some ident ->
    (Implements pass t = true ->
     forall ident', nth_error Lhs i0 = Some (IdentExpr ident') ->
                    Name ident' = "_") ->
    exists k t0,
      nth_error (t :: results) k = Some t0
      /\ Implements pass t0 = true
      /\ nth_error Lhs (i0 + k) = Some (IdentExpr ident)
      /\ Name ident <> "_"
      /\ forall j t' ident',
           j < k -> nth_error (t :: results) j = Some t' ->
           Implements pass t' = true ->
           nth_error Lhs (i0 + j) = Some (IdentExpr ident') ->
           Name ident' = "_").
  { intros Hloop Hhere.
    destruct (IH (S i0) Hloop) as (k & t0 & Hk & Ht0 & Hl & Hname & Hbefore).
    exists (S k), t0. repeat split; try assumption.
    - now rewrite Nat.add_succ_r.
    - intros [|j] t' ident' Hlt Hj Ht' Hl'.
      + simpl in Hj. injection Hj as <-. rewrite Nat.add_0_r in Hl'.
        now apply (Hhere Ht' ident').
      + simpl in Hj. rewrite Nat.add_succ_r in Hl'.
        apply (Hbefore j t' ident'); try assumption. lia. }
  destruct (Implements pass t) eqn:Himpl.
  - destruct (nth_error Lhs i0) as [[ident0| | | | | | | | | |]|] eqn:Hl;
      try (apply Hrest; [assumption | intros _ ? ?; discriminate]).
    destruct (String.eqb (Name ident0) "_") eqn:Hname; simpl in H.
    + apply Hrest; [assumption|]. intros _ ident' Heq.
      injection Heq as <-. now apply String.eqb_eq.
    + injection H as <-. exists 0, t. rewrite Nat.add_0_r.
      repeat split; try assumption.
      * now apply String.eqb_neq.
      * intros j t' ident' Hlt. lia.
  - apply Hrest; [assumption | discriminate].
Qed.

(** X4.  [findReturnedError] returns an identifier exactly when the callee
    has a signature type and the identifier is the left-hand side at the
    first error-capable result position whose left-hand side is an
    identifier other than [_]; in particular it never returns the blank
    identifier, never an identifier at a position whose result type does not
    implement [error], and nothing when the callee's type is not a
    signature. *)
Theorem findReturnedError_first_named_error_target
  (pass : Pass) (a : Addr) (Lhs : list Node) (Tok : Token) (Rhs : list Node)
  (Fun : Node) (Args : list Node) (ident : Ident) :
  findReturnedError pass (AssignStmt a Lhs Tok Rhs) (CallExpr Fun Args)
  = Some ident
  <-> exists results i t,
        TypeOf pass Fun = Some (Signature results)
        /\ nth_error results i = Some t
        /\ Implements pass t = true
        /\ nth_error Lhs i = Some (IdentExpr ident)
        /\ Name ident <> "_"
        /\ forall j t' ident',
             j < i -> nth_error results j = Some t' ->
             Implements pass t' = true ->
             nth_error Lhs j = Some (IdentExpr ident') ->
             Name ident' = "_".
Proof.
  split.
  - intro H. unfold findReturnedError in H.
    destruct (TypeOf pass Fun) as [[results|]|] eqn:Hsig; try discriminate.
    destruct (Nat.eqb (List.length results) 0); [discriminate|].
    destruct (findReturnedError_loop_sound _ _ _ _ _ H)
      as (k & t & Hk & Ht & Hl & Hname & Hbefore).
    exists results, k, t. repeat split; assumption.
  - intros (results & i & t & Hsig & Hi & Ht & Hl & Hname & Hbefore).
    rewrite (findReturnedError_signature _ _ _ _ _ _ _ _ Hsig).
    destruct (nth_error_split results i Hi) as (before & after & -> & Hlen).
    apply findReturnedError_loop_first; try assumption.
    + intros j t' ident' Hj Ht' Hl'. simpl in Hl'.
      assert (Hlt : j < i).
      { rewrite <- Hlen. apply nth_error_Some. now rewrite Hj. }
      apply (Hbefore j t' ident' Hlt); try assumption.
      rewrite nth_error_app1; [assumption|]. now rewrite Hlen.
    + simpl. now rewrite Hlen.
Qed.

Lemma findReturnedError_first_named_error_target_witness :
  exists results i t,
    TypeOf Examples.pass (Examples.ident "twoErrors" 12)
    = Some (Signature results)
    /\ nth_error results i = Some t
    /\ Implements Examples.pass t = true
    /\ nth_error [Examples.ident "_" 10; Examples.ident "err" 11] i
       = Some (IdentExpr (mkIdent "err" 11))
    /\ Name (mkIdent "err" 11) <> "_"
    /\ forall j t' ident',
         j < i -> nth_error results j = Some t' ->
         Implements Examples.pass t' = true ->
         nth_error [Examples.ident "_" 10; Examples.ident "err" 11] j
         = Some (IdentExpr ident') ->
         Name ident' = "_".
Proof.
  apply (proj1 (findReturnedError_first_named_error_target Examples.pass 1
                  [Examples.ident "_" 10; Examples.ident "err" 11] DEFINE
                  [CallExpr (Examples.ident "twoErrors" 12) []]
                  (Examples.ident "twoErrors" 12) [] (mkIdent "err" 11))).
  reflexivity.
Defined.

(** X5.  An error-capable result whose left-hand side is not a plain
    identifier (a field, an index expression, a dereference) is not a
    candidate: when no error-capable result position has an identifier as
    its left-hand side, nothing is tracked and neither part_000 nor
    errcheckif.go reports the assignment. *)
Theorem error_stored_outside_identifier_is_not_tracked
  (pass : Pass) (file : Node) (a : Addr) (Lhs : list Node) (Tok : Token)
  (Fun : Node) (Args : list Node) (results : list GoType) :
  TypeOf pass Fun = Some (Signature results) ->
  (forall i t ident,
      nth_error results i = Some t -> Implements pass t = true ->
      nth_error Lhs i <> Some (IdentExpr ident)) ->
  findReturnedError pass (AssignStmt a Lhs Tok [CallExpr Fun Args])
                    (CallExpr Fun Args) = None
  /\ Part000.visit pass file (AssignStmt a Lhs Tok [CallExpr Fun Args]) = []
  /\ Errcheckif.visit pass file (AssignStmt a Lhs Tok [CallExpr Fun Args])
     = [].
Proof.
  intros Hsig Hnot.
  assert (Hnone :
    findReturnedError pass (AssignStmt a Lhs Tok [CallExpr Fun Args])
                      (CallExpr Fun Args) = None).
  { rewrite (findReturnedError_signature _ _ _ _ _ _ _ _ Hsig).
    apply findReturnedError_loop_none. intros j t ident Hj Ht Hl.
    simpl in Hl. now destruct (Hnot j t ident Hj Ht). }
  split; [assumption|]. split.
  - now apply Part000_visit_untracked.
  - unfold Errcheckif.visit. now rewrite Hnone.
Qed.

Lemma error_stored_outside_identifier_is_not_tracked_witness :
  findReturnedError Examples.pass MoreExamples.assignToField
    (CallExpr (Examples.ident "mightFail" 13) []) = None
  /\ Part000.visit Examples.pass
       (Examples.funcFile [MoreExamples.assignToField])
       MoreExamples.assignToField = []
  /\ Errcheckif.visit Examples.pass
       (Examples.funcFile [MoreExamples.assignToField])
       MoreExamples.assignToField = [].
Proof.
  apply (error_stored_outside_identifier_is_not_tracked Examples.pass
           (Examples.funcFile [MoreExamples.assignToField]) 1
           [Examples.ident "_" 10;
            SelectorExpr (Examples.ident "s" 11) (mkIdent "err" 12)]
           ASSIGN (Examples.ident "mightFail" 13) []
           [TypeName "int"; TypeName "error"]).
  - reflexivity.
  - intros [|[|[|i]]] t ident Hi Ht; simpl in Hi; try discriminate Hi.
    + injection Hi as <-. discriminate Ht.
    + simpl. discriminate.
Defined.

(** ** Further properties: the scan of part_000 *)

Lemma scanSubsequent_true_inv (isHandler : Node -> bool) (pass : Pass)
  (errIdent : Ident) (stmts : list Node) :
  scanSubsequent isHandler pass errIdent stmts = Some true ->
  exists mid h post,
    stmts = mid ++ h :: post
    /\ isHandler h = true
    /\ forall s, In s mid ->
                 isHandler s = false
                 /\ isIdentifierReassigned pass s errIdent = false.
Proof.
  induction stmts as [|s stmts IH]; simpl; [discriminate|].
  destruct (isHandler s) eqn:Hh.
  - intros _. exists [], s, stmts.
    split; [reflexivity|]. split; [assumption|]. intros s' [].
  - destruct (isIdentifierReassigned pass s errIdent) eqn:Hr; [discriminate|].
    intro H. destruct (IH H) as (mid & h & post & -> & Hhh & Hmid).
    exists (s :: mid), h, post.
    split; [reflexivity|]. split; [assumption|].
    intros s' [<-|Hin]; [now split | now apply Hmid].
Qed.

Lemma Part000_scanBlock_inv (pass : Pass) (errIdent : Ident) (prev : Node)
  (list : list Node) (r : bool) :
  Part000.scanBlock pass errIdent prev list = Some r ->
  exists before p following,
    list = before ++ p :: following
    /\ same_node p prev = true
    /\ Forall (fun s => same_node s prev = false) before
    /\ scanSubsequent (fun s => Part000.isStmtAValidHandler pass s errIdent)
                      pass errIdent following = Some r.
Proof.
  induction list as [|s list IH]; simpl; [discriminate|].
  destruct (same_node s prev) eqn:Hs.
  - intro H. exists [], s, list.
    split; [reflexivity|]. split; [assumption|]. split; [constructor|].
    assumption.
  - intro H. destruct (IH H) as (before & p & following & -> & Hp & Hb & Hscan).
    exists (s :: before), p, following.
    split; [reflexivity|]. split; [assumption|].
    split; [now constructor | assumption].
Qed.

Lemma Part000_walkPath_inv (pass : Pass) (errIdent : Ident) (path : list Node) :
  forall prev,
    Part000.walkPath pass errIdent prev path = true ->
    exists pre p0 b list outer,
      match prev with Some q => q :: path | None => path end
      = pre ++ p0 :: BlockStmt b list :: outer
      /\ Part000.scanBlock pass errIdent p0 list = Some true.
Proof.
  induction path as [|node rest IH]; intros prev H; simpl in H;
    [discriminate|].
  assert (Hrest :
    Part000.walkPath pass errIdent (Some node) rest = true ->
    exists pre p0 b list outer,
      match prev with Some q => q :: node :: rest | None => node :: rest end
      = pre ++ p0 :: BlockStmt b list :: outer
      /\ Part000.scanBlock pass errIdent p0 list = Some true).
  { intro Hw. destruct (IH (Some node) Hw)
      as (pre & p0 & b & list & outer & Heq & Hscan).
    destruct prev as [q|].
    - exists (q :: pre), p0, b, list, outer. simpl. now rewrite Heq.
    - exists pre, p0, b, list, outer. now split. }
  destruct node; try (now apply Hrest).
  destruct prev as [p|]; [|now apply Hrest].
  destruct (Part000.scanBlock pass errIdent p List) as [[|]|] eqn:Hscan.
  - exists [], p, addr, List, rest. now split.
  - discriminate.
  - now apply Hrest.
Qed.

(** X6.  [isHandledInSubsequentStatement] answers true only when a block on
    the path holds a handler after the previous node of the path: the block
    lists the previous path node, a later statement of the same list is an
    [if] that proves the error or a [return] that forwards it, and no
    statement between the two is a handler or a rebinding.  A statement that
    is not a direct element of an enclosing block (one inside a sibling
    branch, for instance) is never taken for a handler. *)
Theorem handled_only_by_later_statement_of_enclosing_block
  (pass : Pass) (errIdent : Ident) (path : list Node) :
  Part000.isHandledInSubsequentStatement pass errIdent path = true ->
  exists pre prev b before p mid h post outer,
    path = pre ++ prev
               :: BlockStmt b (before ++ p :: mid ++ h :: post) :: outer
    /\ same_node p prev = true
    /\ Forall (fun s => same_node s prev = false) before
    /\ Part000.isStmtAValidHandler pass h errIdent = true
    /\ forall s, In s mid ->
                 Part000.isStmtAValidHandler pass s errIdent = false
                 /\ isIdentifierReassigned pass s errIdent = false.
Proof.
  intro H. unfold Part000.isHandledInSubsequentStatement in H.
  destruct (Part000_walkPath_inv _ _ _ _ H)
    as (pre & p0 & b & list & outer & Heq & Hscan).
  destruct (Part000_scanBlock_inv _ _ _ _ _ Hscan)
    as (before & p & following & -> & Hp & Hbefore & Hsub).
  destruct (scanSubsequent_true_inv _ _ _ _ Hsub)
    as (mid & h & post & -> & Hh & Hmid).
  exists pre, p0, b, before, p, mid, h, post, outer.
  split; [assumption|]. split; [assumption|]. split; [assumption|].
  split; assumption.
Qed.

Lemma handled_only_by_later_statement_of_enclosing_block_witness :
  exists pre prev b before p mid h post outer,
    Examples.assignFailErr :: Examples.filePath Examples.returnBody
    = pre ++ prev :: BlockStmt b (before ++ p :: mid ++ h :: post) :: outer
    /\ same_node p prev = true
    /\ Forall (fun s => same_node s prev = false) before
    /\ Part000.isStmtAValidHandler Examples.pass h (mkIdent "err" 11) = true
    /\ forall s, In s mid ->
         Part000.isStmtAValidHandler Examples.pass s (mkIdent "err" 11)
         = false
         /\ isIdentifierReassigned Examples.pass s (mkIdent "err" 11) = false.
Proof.
  apply (handled_only_by_later_statement_of_enclosing_block Examples.pass
           (mkIdent "err" 11)
           (Examples.assignFailErr :: Examples.filePath Examples.returnBody)).
  reflexivity.
Defined.

Lemma Part000_walkPath_no_block (pass : Pass) (errIdent : Ident)
  (path : list Node) :
  (forall n, In n path -> forall b l, n <> BlockStmt b l) ->
  forall prev, Part000.walkPath pass errIdent prev path = false.
Proof.
  induction path as [|node rest IH]; intros Hno prev; simpl; [reflexivity|].
  assert (Hrest : forall q, Part000.walkPath pass errIdent q rest = false).
  { apply IH. intros n Hin. apply Hno. now right. }
  destruct node; try apply Hrest.
  now destruct (Hno (BlockStmt addr List) (or_introl eq_refl) addr List).
Qed.

(** X7.  Reaching the end of the function proves nothing.  When no
    statement after a tracked assignment in its block is a handler and the
    nodes that enclose the block hold no further block (the block is the
    body of a function declaration), the assignment is reported. *)
Theorem unhandled_at_function_boundary_is_reported
  (pass : Pass) (file assign : Node) (errIdent : Ident) (b : Addr)
  (before following outer : list Node) :
  Tracked pass assign errIdent ->
  PathEnclosingInterval file assign
  = Some (assign :: BlockStmt b (before ++ assign :: following) :: outer) ->
  Forall (fun s => same_node s assign = false) before ->
  (forall s, In s following ->
             Part000.isStmtAValidHandler pass s errIdent = false) ->
  (forall n, In n outer -> forall b' l, n <> BlockStmt b' l) ->
  Part000.visit pass file assign
  = [ {| DPos := NamePos errIdent;
         Message := "error '" ++ Name errIdent
                    ++ "' is not checked or returned" |} ].
Proof.
  intros Ht Hpath Hbefore Hnone Houter.
  rewrite (Part000_visit_tracked _ _ _ _ _ Ht Hpath).
  pose proof (Tracked_same_node _ _ _ Ht) as Hrefl.
  assert (Hscan :
    Part000.isHandledInSubsequentStatement pass errIdent
      (assign :: BlockStmt b (before ++ assign :: following) :: outer)
    = false).
  { destruct Ht as (a & Lhs & Tok & F & Args & -> & _).
    unfold Part000.isHandledInSubsequentStatement.
    cbn [Part000.walkPath].
    rewrite Part000_scanBlock_found by assumption.
    pose proof (scanSubsequent_no_handler
                  (fun s => Part000.isStmtAValidHandler pass s errIdent)
                  pass errIdent following Hnone) as Hne.
    destruct (scanSubsequent _ pass errIdent following) as [[|]|];
      try congruence.
    now apply Part000_walkPath_no_block. }
  rewrite Hscan.
  destruct Ht as (a & Lhs & Tok & F & Args & -> & _). reflexivity.
Qed.

Lemma unhandled_at_function_boundary_is_reported_witness :
  Part000.visit Examples.pass (Examples.funcFile Examples.uncheckedBody)
    (Examples.assignErr 1 DEFINE 10)
  = [ {| DPos := 11; Message := "error 'err' is not checked or returned" |} ].
Proof.
  apply (unhandled_at_function_boundary_is_reported Examples.pass
           (Examples.funcFile Examples.uncheckedBody)
           (Examples.assignErr 1 DEFINE 10) (mkIdent "err" 11) 1002 []
           [Examples.println 2 20]
           [OtherNode "FuncDecl" 1001
              [BlockStmt 1002 Examples.uncheckedBody];
            Examples.funcFile Examples.uncheckedBody]).
  - exists 1, [Examples.ident "_" 10; Examples.ident "err" 11], DEFINE,
      (Examples.ident "mightFail" 12), []. split; reflexivity.
  - reflexivity.
  - constructor.
  - intros s [<-|[]]. reflexivity.
  - intros n [<-|[<-|[]]] b' l; discriminate.
Defined.

(** X8.  When the statements after a tracked assignment in its block hold
    neither a handler nor a rebinding, the search goes on outward: the
    answer is the answer of the search that starts at the block. *)
Theorem inconclusive_block_continues_outward
  (pass : Pass) (errIdent : Ident) (assign : Node) (b : Addr)
  (before following outer : list Node) :
  Tracked pass assign errIdent ->
  Forall (fun s => same_node s assign = false) before ->
  (forall s, In s following ->
             Part000.isStmtAValidHandler pass s errIdent = false
             /\ isIdentifierReassigned pass s errIdent = false) ->
  Part000.isHandledInSubsequentStatement pass errIdent
    (assign :: BlockStmt b (before ++ assign :: following) :: outer)
  = Part000.isHandledInSubsequentStatement pass errIdent
      (BlockStmt b (before ++ assign :: following) :: outer).
Proof.
  intros Ht Hbefore Hskip.
  pose proof (Tracked_same_node _ _ _ Ht) as Hrefl.
  destruct Ht as (a & Lhs & Tok & F & Args & -> & _).
  unfold Part000.isHandledInSubsequentStatement. cbn [Part000.walkPath].
  rewrite Part000_scanBlock_found by assumption.
  rewrite <- (app_nil_r following).
  rewrite (scanSubsequent_skip _ _ _ following [] Hskip). reflexivity.
Qed.

(** [if ok { _, err = mightFail(); fmt.Println() }; if err != nil { }]: the
    check after the branch is found from inside the branch. *)
Lemma inconclusive_block_continues_outward_witness :
  Part000.isHandledInSubsequentStatement Examples.pass (mkIdent "err" 11)
    (Examples.assignErr 1 ASSIGN 10 :: MoreExamples.innerBlock
     :: IfStmt 5 None (Examples.ident "ok" 5) MoreExamples.innerBlock None
     :: Examples.filePath MoreExamples.checkedAfterBranchBody)
  = true.
Proof.
  refine (eq_trans
            (inconclusive_block_continues_outward Examples.pass
               (mkIdent "err" 11) (Examples.assignErr 1 ASSIGN 10) 6 []
               [Examples.println 2 20]
               (IfStmt 5 None (Examples.ident "ok" 5) MoreExamples.innerBlock
                       None
                :: Examples.filePath MoreExamples.checkedAfterBranchBody)
               _ _ _) _).
  - exists 1, [Examples.ident "_" 10; Examples.ident "err" 11], ASSIGN,
      (Examples.ident "mightFail" 12), []. split; reflexivity.
  - constructor.
  - intros s [<-|[]]. split; reflexivity.
  - reflexivity.
Defined.

(** X9.  An assignment in the initializer of an [if] whose condition does
    not prove the error is searched for a handler among the statements that
    follow the [if] in the enclosing block; the body and the else branch of
    that [if] are not looked at.  When the scan of the following statements
    returns, its answer decides. *)
Theorem unproven_if_initializer_is_searched_after_the_if
  (pass : Pass) (file assign : Node) (errIdent : Ident)
  (ia : Addr) (cond body : Node) (els : option Node) (b : Addr)
  (before following outer : list Node) (r : bool) :
  Tracked pass assign errIdent ->
  PathEnclosingInterval file assign
  = Some (assign :: IfStmt ia (Some assign) cond body els
          :: BlockStmt b (before ++ IfStmt ia (Some assign) cond body els
                                 :: following)
          :: outer) ->
  checkCondition pass cond errIdent = false ->
  Forall (fun s => same_node s (IfStmt ia (Some assign) cond body els)
                   = false) before ->
  scanSubsequent (fun s => Part000.isStmtAValidHandler pass s errIdent)
                 pass errIdent following = Some r ->
  Part000.visit pass file assign
  = if r then []
    else [ {| DPos := NamePos errIdent;
              Message := "error '" ++ Name errIdent
                         ++ "' is not checked or returned" |} ].
Proof.
  intros Ht Hpath Hcond Hbefore Hscan.
  rewrite (Part000_visit_tracked _ _ _ _ _ Ht Hpath).
  pose proof (Tracked_same_node _ _ _ Ht) as Hrefl.
  assert (Hinit :
    Part000.isHandledInIfInit pass errIdent
      (assign :: IfStmt ia (Some assign) cond body els
       :: BlockStmt b (before ++ IfStmt ia (Some assign) cond body els
                              :: following)
       :: outer) = false).
  { cbn [Part000.isHandledInIfInit]. now rewrite Hrefl. }
  assert (Hwalk :
    Part000.isHandledInSubsequentStatement pass errIdent
      (assign :: IfStmt ia (Some assign) cond body els
       :: BlockStmt b (before ++ IfStmt ia (Some assign) cond body els
                              :: following)
       :: outer) = r).
  { destruct Ht as (a & Lhs & Tok & F & Args & -> & _).
    unfold Part000.isHandledInSubsequentStatement. cbn [Part000.walkPath].
    rewrite Part000_scanBlock_found; try assumption.
    - now rewrite Hscan.
    - unfold same_node. simpl. apply Nat.eqb_refl. }
  rewrite Hinit, Hwalk. now destruct r.
Qed.

(** [if _, err = mightFail(); ok { if err != nil { } }; fmt.Println()]: the
    check inside the body does not count and the assignment is reported;
    with [if err != nil { }] after the [if] it is not. *)
Lemma unproven_if_initializer_is_searched_after_the_if_witness :
  Part000.visit Examples.pass
    (Examples.funcFile MoreExamples.checkedAfterIfBody)
    (Examples.assignErr 1 ASSIGN 10) = [].
Proof.
  apply (unproven_if_initializer_is_searched_after_the_if Examples.pass
           (Examples.funcFile MoreExamples.checkedAfterIfBody)
           (Examples.assignErr 1 ASSIGN 10) (mkIdent "err" 11)
           2 (Examples.ident "ok" 20)
           (BlockStmt 3 [Examples.ifEmpty 4 (Examples.errNeqNil 30)]) None
           1002 [] [Examples.ifEmpty 7 (Examples.errNeqNil 50)]
           [OtherNode "FuncDecl" 1001
              [BlockStmt 1002 MoreExamples.checkedAfterIfBody];
            Examples.funcFile MoreExamples.checkedAfterIfBody] true).
  - exists 1, [Examples.ident "_" 10; Examples.ident "err" 11], ASSIGN,
      (Examples.ident "mightFail" 12), []. split; reflexivity.
  - reflexivity.
  - reflexivity.
  - constructor.
  - reflexivity.
Defined.

Lemma check_inside_if_body_does_not_count :
  Part000.run Examples.pass
    [Examples.funcFile MoreExamples.checkedInsideIfBody]
  = [ {| DPos := 11; Message := "error 'err' is not checked or returned" |} ].
Proof. reflexivity. Qed.

(** X10.  A tracked error followed in its block, before any statement that
    rebinds it, by an [if] whose condition counts as a check ([errors.Is] or
    [errors.As] on the error, a comparison with nil, or a disjunction holding
    one of them) is not reported. *)
Theorem checking_if_before_rebinding_is_a_handler
  (pass : Pass) (file assign : Node) (errIdent : Ident)
  (path mid : list Node) (ia : Addr) (init : option Node) (cond body : Node)
  (els : option Node) (post : list Node) :
  Tracked pass assign errIdent ->
  PathEnclosingInterval file assign = Some path ->
  FollowedInBlock path assign (mid ++ IfStmt ia init cond body els :: post) ->
  (forall s o, In s mid -> ObjectOf pass errIdent = Some o ->
               ~ Rebinds pass o s) ->
  Proves pass errIdent cond ->
  Part000.visit pass file assign = [].
Proof.
  intros Ht Hpath Hfol Hmid Hcond.
  assert (Hhandled :
    Part000.isHandledInSubsequentStatement pass errIdent path = true).
  { apply (Part000_scan_decides _ _ _ _ _ _ Ht Hfol).
    apply scanSubsequent_handler.
    - intros s Hs. apply not_true_is_false. intro H.
      apply isIdentifierReassigned_iff in H.
      destruct H as (o & Ho & H). exact (Hmid s o Hs Ho H).
    - cbn [Part000.isStmtAValidHandler]. now apply checkCondition_Proves. }
  rewrite (Part000_visit_tracked _ _ _ _ _ Ht Hpath).
  rewrite (Part000_not_if_init _ _ _ _ _ Hfol), Hhandled. reflexivity.
Qed.

(** [_, err := mightFail(); fmt.Println(); if errors.Is(err, target) { }] *)
Lemma checking_if_before_rebinding_is_a_handler_witness :
  Part000.visit Examples.pass (Examples.funcFile MoreExamples.errorsIsBody)
    (Examples.assignErr 1 DEFINE 10) = [].
Proof.
  apply (checking_if_before_rebinding_is_a_handler Examples.pass
           (Examples.funcFile MoreExamples.errorsIsBody)
           (Examples.assignErr 1 DEFINE 10) (mkIdent "err" 11)
           (Examples.assignErr 1 DEFINE 10
            :: Examples.filePath MoreExamples.errorsIsBody)
           [Examples.println 2 20] 3 None (Examples.errorsIs 30)
           (BlockStmt 4 []) None []).
  - exists 1, [Examples.ident "_" 10; Examples.ident "err" 11], DEFINE,
      (Examples.ident "mightFail" 12), []. split; reflexivity.
  - reflexivity.
  - exists 1002, [], [OtherNode "FuncDecl" 1001
                        [BlockStmt 1002 MoreExamples.errorsIsBody];
                      Examples.funcFile MoreExamples.errorsIsBody].
    split; [reflexivity | constructor].
  - intros s o [<-|[]] Ho H. injection Ho as <-.
    apply Inspect_reassigned_iff in H. vm_compute in H. discriminate H.
  - apply Proves_errors_call.
    + reflexivity.
    + left. reflexivity.
    + exists (mkIdent "err" 32). split; reflexivity.
Defined.

(** ** Further properties: errcheckif.go against part_000 *)

Lemma Errcheckif_scanBlock_after_inconclusive (pass : Pass)
  (errIdent : Ident) (prev : Node) (list : list Node) :
  scanSubsequent (fun s => Errcheckif.checkIfStmtHandlesError pass s errIdent)
                 pass errIdent list = None ->
  Errcheckif.scanBlock pass errIdent prev list = None.
Proof.
  induction list as [|s list IH]; simpl; [reflexivity|].
  destruct (Errcheckif.checkIfStmtHandlesError pass s errIdent);
    [discriminate|].
  destruct (isIdentifierReassigned pass s errIdent); [discriminate|].
  intro H. rewrite H. rewrite (IH H). now destruct (same_node s prev).
Qed.

(** X11.  The loop over the statements of a block in errcheckif.go has no
    [break] after the scan; it still returns what the scan after the first
    occurrence of the previous path node returns, whatever the rest of the
    list holds. *)
Theorem Errcheckif_missing_break_is_harmless
  (pass : Pass) (errIdent : Ident) (prev p : Node)
  (before following : list Node) :
  Forall (fun s => same_node s prev = false) before ->
  same_node p prev = true ->
  Errcheckif.scanBlock pass errIdent prev (before ++ p :: following)
  = scanSubsequent
      (fun s => Errcheckif.checkIfStmtHandlesError pass s errIdent)
      pass errIdent following.
Proof.
  intros Hbefore Hp. induction Hbefore as [|s before Hs _ IH]; simpl.
  - rewrite Hp.
    destruct (scanSubsequent _ pass errIdent following) eqn:Hscan;
      [reflexivity|].
    now apply Errcheckif_scanBlock_after_inconclusive.
  - now rewrite Hs.
Qed.

(** The list holds the object at address 1 twice (which no syntax tree
    does): the second occurrence adds nothing. *)
Lemma Errcheckif_missing_break_is_harmless_witness :
  Errcheckif.scanBlock Examples.pass (mkIdent "err" 11)
    (Examples.assignErr 1 DEFINE 10)
    [Examples.println 2 20; Examples.assignErr 1 DEFINE 10;
     Examples.println 3 30; Examples.println 1 40;
     Examples.ifEmpty 4 (Examples.ident "ok" 50)]
  = None.
Proof.
  refine (eq_trans
            (Errcheckif_missing_break_is_harmless Examples.pass
               (mkIdent "err" 11) (Examples.assignErr 1 DEFINE 10)
               (Examples.assignErr 1 DEFINE 10) [Examples.println 2 20]
               [Examples.println 3 30; Examples.println 1 40;
                Examples.ifEmpty 4 (Examples.ident "ok" 50)] _ _) _).
  - repeat constructor.
  - reflexivity.
  - reflexivity.
Defined.

Lemma Errcheckif_handler_is_Part000_handler (pass : Pass) (s : Node)
  (errIdent : Ident) :
  Errcheckif.checkIfStmtHandlesError pass s errIdent = true ->
  Part000.isStmtAValidHandler pass s errIdent = true.
Proof. destruct s; simpl; congruence. Qed.

Lemma Errcheckif_scan_true (pass : Pass) (errIdent : Ident) (l : list Node) :
  scanSubsequent (fun s => Errcheckif.checkIfStmtHandlesError pass s errIdent)
                 pass errIdent l = Some true ->
  scanSubsequent (fun s => Part000.isStmtAValidHandler pass s errIdent)
                 pass errIdent l = Some true.
Proof.
  induction l as [|s l IH]; simpl; [discriminate|].
  destruct (Errcheckif.checkIfStmtHandlesError pass s errIdent) eqn:He.
  - now rewrite (Errcheckif_handler_is_Part000_handler _ _ _ He).
  - destruct (Part000.isStmtAValidHandler pass s errIdent); [reflexivity|].
    destruct (isIdentifierReassigned pass s errIdent); [discriminate|].
    exact IH.
Qed.

Lemma Errcheckif_scan_none (pass : Pass) (errIdent : Ident) (l : list Node) :
  scanSubsequent (fun s => Errcheckif.checkIfStmtHandlesError pass s errIdent)
                 pass errIdent l = None ->
  scanSubsequent (fun s => Part000.isStmtAValidHandler pass s errIdent)
                 pass errIdent l <> Some false.
Proof.
  induction l as [|s l IH]; simpl; [discriminate|].
  destruct (Errcheckif.checkIfStmtHandlesError pass s errIdent);
    [discriminate|].
  destruct (Part000.isStmtAValidHandler pass s errIdent); [discriminate|].
  destruct (isIdentifierReassigned pass s errIdent); [discriminate|].
  exact IH.
Qed.

Lemma Errcheckif_scanBlock_true (pass : Pass) (errIdent : Ident)
  (prev : Node) (list : list Node) :
  Errcheckif.scanBlock pass errIdent prev list = Some true ->
  Part000.scanBlock pass errIdent prev list = Some true.
Proof.
  induction list as [|s list IH]; simpl; [discriminate|].
  destruct (same_node s prev); [|exact IH].
  destruct (scanSubsequent
              (fun s0 => Errcheckif.checkIfStmtHandlesError pass s0 errIdent)
              pass errIdent list) as [[|]|] eqn:Hscan.
  - intros _. now apply Errcheckif_scan_true.
  - discriminate.
  - rewrite (Errcheckif_scanBlock_after_inconclusive _ _ _ _ Hscan).
    discriminate.
Qed.

Lemma Errcheckif_scanBlock_none (pass : Pass) (errIdent : Ident)
  (prev : Node) (list : list Node) :
  Errcheckif.scanBlock pass errIdent prev list = None ->
  Part000.scanBlock pass errIdent prev list <> Some false.
Proof.
  induction list as [|s list IH]; simpl; [discriminate|].
  destruct (same_node s prev); [|exact IH].
  destruct (scanSubsequent
              (fun s0 => Errcheckif.checkIfStmtHandlesError pass s0 errIdent)
              pass errIdent list) as [[|]|] eqn:Hscan; try discriminate.
  intros _. now apply Errcheckif_scan_none.
Qed.

Lemma Errcheckif_walkPath_true (pass : Pass) (errIdent : Ident)
  (path : list Node) :
  forall prev,
    Errcheckif.walkPath pass errIdent prev path = true ->
    Part000.walkPath pass errIdent prev path = true.
Proof.
  induction path as [|node rest IH]; intros prev; simpl; [discriminate|].
  destruct node; try apply IH.
  destruct prev as [p|]; [|apply IH].
  destruct (Errcheckif.scanBlock pass errIdent p List) as [[|]|] eqn:He.
  - intros _. now rewrite (Errcheckif_scanBlock_true _ _ _ _ He).
  - discriminate.
  - intro H. pose proof (Errcheckif_scanBlock_none _ _ _ _ He) as Hne.
    destruct (Part000.scanBlock pass errIdent p List) as [[|]|];
      [reflexivity | congruence | now apply IH].
Qed.

(** X12.  part_000 accepts whatever errcheckif.go accepts: an error that
    [isErrorHandled] finds handled is found handled by
    [isHandledInSubsequentStatement], and a node for which the callback of
    errcheckif.go reports nothing gets no report from the callback of
    part_000 either. *)
Theorem Part000_reports_no_more_than_Errcheckif
  (pass : Pass) (file node : Node) :
  (forall errIdent path,
      Errcheckif.isErrorHandled pass errIdent path = true ->
      Part000.isHandledInSubsequentStatement pass errIdent path = true)
  /\ (Errcheckif.visit pass file node = [] ->
      Part000.visit pass file node = []).
Proof.
  assert (Hhandled : forall errIdent path,
    Errcheckif.isErrorHandled pass errIdent path = true ->
    Part000.isHandledInSubsequentStatement pass errIdent path = true).
  { intros errIdent path. apply Errcheckif_walkPath_true. }
  split; [exact Hhandled|].
  unfold Errcheckif.visit, Part000.visit.
  destruct node as [| | | |a Lhs Tok Rhs| | | | | |]; try reflexivity.
  destruct Rhs as [|[| |Fun Args| | | | | | | |] [|? ?]]; try reflexivity.
  destruct (findReturnedError pass _ _) as [errIdent|]; [|reflexivity].
  destruct (PathEnclosingInterval file _) as [path|]; [|reflexivity].
  destruct (Errcheckif.isErrorHandled pass errIdent path) eqn:He;
    [|discriminate].
  intros _. rewrite (Hhandled _ _ He).
  now destruct (Part000.isHandledInIfInit pass errIdent path).
Qed.

Lemma Part000_reports_no_more_than_Errcheckif_witness :
  Part000.visit Examples.pass (Examples.funcFile Examples.eqlNilBody)
    (Examples.assignErr 1 DEFINE 10) = [].
Proof.
  apply (proj2 (Part000_reports_no_more_than_Errcheckif Examples.pass
                  (Examples.funcFile Examples.eqlNilBody)
                  (Examples.assignErr 1 DEFINE 10))).
  reflexivity.
Defined.

(** ** Further properties: rebinding and the identity of the target *)

Lemma existsb_false {A : Type} (l : list A) :
  existsb (fun _ => false) l = false.
Proof. induction l; simpl; auto. Qed.

(** X13.  The rebinding test descends through the whole statement: a node
    rebinds the target exactly when it is an assignment with the target
    among its left-hand identifiers or one of its children, in the order of
    [ast.Walk], rebinds it.  So a rebinding inside a nested block, a branch
    or a function literal on a right-hand side is found. *)
Theorem isIdentifierReassigned_by_children
  (pass : Pass) (n : Node) (errIdent : Ident) :
  isIdentifierReassigned pass n errIdent
  = (match n, ObjectOf pass errIdent with
     | AssignStmt _ Lhs _ _, Some targetObj => lhsRebinds pass targetObj Lhs
     | _, _ => false
     end
     || existsb (fun c => isIdentifierReassigned pass c errIdent)
                (children n)).
Proof.
  unfold isIdentifierReassigned.
  destruct (ObjectOf pass errIdent) as [o|].
  - rewrite Inspect_reassigned_unfold. now destruct n.
  - rewrite existsb_false. now destruct n.
Qed.

Lemma isIdent_same_declaration (pass : Pass) (e1 e2 : Ident) (x : Node) :
  ObjectOf pass e1 = ObjectOf pass e2 ->
  isIdent pass x e1 = isIdent pass x e2.
Proof. intro H. destruct x; simpl; try reflexivity. now rewrite H. Qed.

Lemma checkCondition_same_declaration (pass : Pass) (e1 e2 : Ident)
  (cond : Node) :
  ObjectOf pass e1 = ObjectOf pass e2 ->
  checkCondition pass cond e1 = checkCondition pass cond e2.
Proof.
  intro H. induction cond as [cond IH] using Node_children_ind.
  destruct cond; try reflexivity.
  - simpl in IH. inversion IH as [|? ? HX IH']; subst.
    inversion IH' as [|? ? HY _]; subst.
    simpl. rewrite HX, HY.
    now rewrite !(isIdent_same_declaration pass e1 e2 _ H).
  - simpl. destruct cond; try reflexivity.
    destruct cond; try reflexivity.
    destruct Args as [|arg0 args]; [reflexivity|].
    now rewrite (isIdent_same_declaration pass e1 e2 _ H).
Qed.

Lemma handler_same_declaration (pass : Pass) (e1 e2 : Ident) (s : Node) :
  ObjectOf pass e1 = ObjectOf pass e2 ->
  Part000.isStmtAValidHandler pass s e1
  = Part000.isStmtAValidHandler pass s e2.
Proof.
  intro H. destruct s; try reflexivity.
  - simpl. now apply checkCondition_same_declaration.
  - simpl. now rewrite H.
Qed.

Lemma reassigned_same_declaration (pass : Pass) (e1 e2 : Ident) (s : Node) :
  ObjectOf pass e1 = ObjectOf pass e2 ->
  isIdentifierReassigned pass s e1 = isIdentifierReassigned pass s e2.
Proof. intro H. unfold isIdentifierReassigned. now rewrite H. Qed.

Lemma scan_same_declaration (pass : Pass) (e1 e2 : Ident) (l : list Node) :
  ObjectOf pass e1 = ObjectOf pass e2 ->
  scanSubsequent (fun s => Part000.isStmtAValidHandler pass s e1) pass e1 l
  = scanSubsequent (fun s => Part000.isStmtAValidHandler pass s e2) pass e2 l.
Proof.
  intro H. induction l as [|s l IH]; simpl; [reflexivity|].
  rewrite (handler_same_declaration pass e1 e2 s H).
  rewrite (reassigned_same_declaration pass e1 e2 s H).
  now rewrite IH.
Qed.

Lemma scanBlock_same_declaration (pass : Pass) (e1 e2 : Ident) (prev : Node)
  (l : list Node) :
  ObjectOf pass e1 = ObjectOf pass e2 ->
  Part000.scanBlock pass e1 prev l = Part000.scanBlock pass e2 prev l.
Proof.
  intro H. induction l as [|s l IH]; simpl; [reflexivity|].
  rewrite IH. now rewrite (scan_same_declaration pass e1 e2 l H).
Qed.

Lemma walkPath_same_declaration (pass : Pass) (e1 e2 : Ident)
  (path : list Node) :
  ObjectOf pass e1 = ObjectOf pass e2 ->
  forall prev,
    Part000.walkPath pass e1 prev path = Part000.walkPath pass e2 prev path.
Proof.
  intro H. induction path as [|node rest IH]; intro prev; simpl;
    [reflexivity|].
  destruct node; try apply IH.
  destruct prev as [p|]; [|apply IH].
  rewrite (scanBlock_same_declaration pass e1 e2 p List H).
  now rewrite IH.
Qed.

(** X14.  The tracked identifier counts only through the declaration it is
    bound to: for two identifier occurrences bound to the same declaration,
    whatever their names and positions, the classifier, the rebinding test,
    the if-initializer rule and the scan give the same answers. *)
Theorem target_counts_by_declaration
  (pass : Pass) (e1 e2 : Ident) :
  ObjectOf pass e1 = ObjectOf pass e2 ->
  (forall cond, checkCondition pass cond e1 = checkCondition pass cond e2)
  /\ (forall stmt, isIdentifierReassigned pass stmt e1
                   = isIdentifierReassigned pass stmt e2)
  /\ (forall path, Part000.isHandledInIfInit pass e1 path
                   = Part000.isHandledInIfInit pass e2 path)
  /\ (forall path, Part000.isHandledInSubsequentStatement pass e1 path
                   = Part000.isHandledInSubsequentStatement pass e2 path).
Proof.
  intro H. split; [|split; [|split]].
  - intro cond. now apply checkCondition_same_declaration.
  - intro stmt. now apply reassigned_same_declaration.
  - intros [|p0 [|[] rest]]; try reflexivity.
    simpl. now rewrite (checkCondition_same_declaration pass e1 e2 Cond H).
  - intro path. now apply walkPath_same_declaration.
Qed.

(** The occurrence of [err] in the assignment and the one in a later
    condition are interchangeable as targets. *)
Lemma target_counts_by_declaration_witness :
  Part000.isHandledInSubsequentStatement Examples.pass (mkIdent "err" 11)
    (Examples.assignErr 1 DEFINE 10 :: Examples.filePath Examples.eqlNilBody)
  = Part000.isHandledInSubsequentStatement Examples.pass (mkIdent "err" 20)
      (Examples.assignErr 1 DEFINE 10
       :: Examples.filePath Examples.eqlNilBody).
Proof.
  apply (target_counts_by_declaration Examples.pass (mkIdent "err" 11)
           (mkIdent "err" 20)).
  reflexivity.
Defined.

(** ** Further properties: the reports of [run] *)

Lemma Part000_visit_inv (pass : Pass) (file node : Node) (d : Diagnostic) :
  In d (Part000.visit pass file node) ->
  exists a Lhs Tok Fun Args errIdent path,
    node = AssignStmt a Lhs Tok [CallExpr Fun Args]
    /\ findReturnedError pass node (CallExpr Fun Args) = Some errIdent
    /\ PathEnclosingInterval file node = Some path
    /\ Part000.isHandledInIfInit pass errIdent path = false
    /\ Part000.isHandledInSubsequentStatement pass errIdent path = false
    /\ d = mkDiagnostic (NamePos errIdent)
             (message_not_checked_or_returned (Name errIdent)).
Proof.
  unfold Part000.visit.
  destruct node as [| | | |a Lhs Tok Rhs| | | | | |]; try (intros []).
  destruct Rhs as [|[| |Fun Args| | | | | | | |] [|? ?]]; try (intros []).
  destruct (findReturnedError pass _ _) as [errIdent|] eqn:Hfind;
    [|intros []].
  destruct (PathEnclosingInterval file _) as [path|] eqn:Hpath; [|intros []].
  destruct (Part000.isHandledInIfInit pass errIdent path) eqn:Hinit;
    [intros []|].
  destruct (Part000.isHandledInSubsequentStatement pass errIdent path)
    eqn:Hscan; [intros []|].
  intros [<-|[]].
  exists a, Lhs, Tok, Fun, Args, errIdent, path. repeat split; assumption.
Qed.

(** X15.  Every diagnostic of [run] is anchored at a left-hand identifier,
    other than [_], of an assignment statement of one of the files whose
    right-hand side is a single call; its text is
    [error '<name>' is not checked or returned] for the name of that
    identifier; and neither the if-initializer rule nor the scan found the
    error handled. *)
Theorem run_reports_only_unhandled_named_targets
  (pass : Pass) (files : list Node) (d : Diagnostic) :
  In d (Part000.run pass files) ->
  exists file a Lhs Tok Fun Args errIdent path,
    In file files
    /\ In (AssignStmt a Lhs Tok [CallExpr Fun Args]) (Preorder file)
    /\ In (IdentExpr errIdent) Lhs
    /\ Name errIdent <> "_"
    /\ PathEnclosingInterval file (AssignStmt a Lhs Tok [CallExpr Fun Args])
       = Some path
    /\ Part000.isHandledInIfInit pass errIdent path = false
    /\ Part000.isHandledInSubsequentStatement pass errIdent path = false
    /\ d = {| DPos := NamePos errIdent;
              Message := "error '" ++ Name errIdent
                         ++ "' is not checked or returned" |}.
Proof.
  unfold Part000.run. intro H.
  apply in_flat_map in H. destruct H as (file & Hfile & H).
  apply in_flat_map in H. destruct H as (node & Hnode & H).
  destruct (Part000_visit_inv _ _ _ _ H)
    as (a & Lhs & Tok & Fun & Args & errIdent & path
        & -> & Hfind & Hpath & Hinit & Hscan & ->).
  unfold findReturnedError in Hfind.
  destruct (TypeOf pass Fun) as [[results|]|]; try discriminate.
  destruct (Nat.eqb (List.length results) 0); [discriminate|].
  destruct (findReturnedError_loop_sound _ _ _ _ _ Hfind)
    as (k & t & _ & _ & Hl & Hname & _).
  exists file, a, Lhs, Tok, Fun, Args, errIdent, path.
  repeat split; try assumption.
  now apply nth_error_In with k.
Qed.

Lemma run_reports_only_unhandled_named_targets_witness :
  exists file a Lhs Tok Fun Args errIdent path,
    In file [Examples.funcFile Examples.rebindBody]
    /\ In (AssignStmt a Lhs Tok [CallExpr Fun Args]) (Preorder file)
    /\ In (IdentExpr errIdent) Lhs
    /\ Name errIdent <> "_"
    /\ PathEnclosingInterval file (AssignStmt a Lhs Tok [CallExpr Fun Args])
       = Some path
    /\ Part000.isHandledInIfInit Examples.pass errIdent path = false
    /\ Part000.isHandledInSubsequentStatement Examples.pass errIdent path
       = false
    /\ {| DPos := 11; Message := "error 'err' is not checked or returned" |}
       = {| DPos := NamePos errIdent;
            Message := "error '" ++ Name errIdent
                       ++ "' is not checked or returned" |}.
Proof.
  refine (run_reports_only_unhandled_named_targets Examples.pass
            [Examples.funcFile Examples.rebindBody]
            {| DPos := 11;
               Message := "error 'err' is not checked or returned" |} _).
  vm_compute. left. reflexivity.
Defined.

(** ** Further properties: [findFile] *)

Lemma findFile_none (spanOf : Node -> Span) (files : list Node) (node : Node) :
  findFile spanOf files node = None <->
  forall g, In g files -> encloses (spanOf g) (spanOf node) = false.
Proof.
  induction files as [|file rest IH]; simpl.
  - split; [intros _ g [] | reflexivity].
  - destruct (encloses (spanOf file) (spanOf node)) eqn:He.
    + split; [discriminate|]. intro H.
      rewrite (H file (or_introl eq_refl)) in He. discriminate.
    + rewrite IH. split.
      * intros H g [<-|Hin]; [assumption | now apply H].
      * intros H g Hin. apply H. now right.
Qed.

Lemma findFile_some (spanOf : Node -> Span) (files : list Node)
  (node file : Node) :
  findFile spanOf files node = Some file <->
  exists before after,
    files = before ++ file :: after
    /\ encloses (spanOf file) (spanOf node) = true
    /\ forall g, In g before -> encloses (spanOf g) (spanOf node) = false.
Proof.
  induction files as [|f rest IH]; simpl.
  - split; [discriminate|]. intros (before & after & Heq & _).
    now destruct before.
  - destruct (encloses (spanOf f) (spanOf node)) eqn:He.
    + split.
      * intro H. injection H as <-. exists [], rest.
        split; [reflexivity|]. split; [assumption|]. intros g [].
      * intros ([|g before] & after & Heq & Henc & Hbefore).
        -- simpl in Heq. now injection Heq as -> _.
        -- simpl in Heq. injection Heq as -> _.
           rewrite (Hbefore g (or_introl eq_refl)) in He. discriminate.
    + rewrite IH. split.
      * intros (before & after & -> & Henc & Hbefore).
        exists (f :: before), after. split; [reflexivity|].
        split; [assumption|]. intros g [<-|Hin]; [assumption|].
        now apply Hbefore.
      * intros ([|g before] & after & Heq & Henc & Hbefore).
        -- simpl in Heq. injection Heq as -> _. congruence.
        -- simpl in Heq. injection Heq as -> ->.
           exists before, after. split; [reflexivity|].
           split; [assumption|]. intros g' Hin. apply Hbefore. now right.
Qed.

(** X16.  [findFile] returns the first file of the pass whose source range
    encloses the range of the node, and the nil file exactly when no file
    does. *)
Theorem findFile_first_enclosing_file
  (spanOf : Node -> Span) (files : list Node) (node : Node) :
  (forall file,
      findFile spanOf files node = Some file ->
      exists before after,
        files = before ++ file :: after
        /\ SPos (spanOf file) <= SPos (spanOf node)
        /\ SEnd (spanOf node) <= SEnd (spanOf file)
        /\ forall g, In g before ->
                     ~ (SPos (spanOf g) <= SPos (spanOf node)
                        /\ SEnd (spanOf node) <= SEnd (spanOf g)))
  /\ (findFile spanOf files node = None <->
      forall g, In g files ->
                ~ (SPos (spanOf g) <= SPos (spanOf node)
                   /\ SEnd (spanOf node) <= SEnd (spanOf g))).
Proof.
  assert (Henc : forall g,
    encloses (spanOf g) (spanOf node) = false <->
    ~ (SPos (spanOf g) <= SPos (spanOf node)
       /\ SEnd (spanOf node) <= SEnd (spanOf g))).
  { intro g. unfold encloses.
    rewrite andb_false_iff, !Nat.leb_gt. lia. }
  split.
  - intros file H. apply findFile_some in H.
    destruct H as (before & after & -> & He & Hbefore).
    exists before, after. unfold encloses in He.
    apply andb_true_iff in He. destruct He as [H1 H2].
    apply Nat.leb_le in H1. apply Nat.leb_le in H2.
    split; [reflexivity|]. split; [assumption|]. split; [assumption|].
    intros g Hin. apply Henc. now apply Hbefore.
  - rewrite findFile_none. split; intros H g Hin; apply Henc; now apply H.
Qed.

Lemma findFile_first_enclosing_file_witness :
  exists before after,
    [MoreExamples.fileA; MoreExamples.fileB]
    = before ++ MoreExamples.fileB :: after
    /\ SPos (MoreExamples.spanOf MoreExamples.fileB)
       <= SPos (MoreExamples.spanOf (Examples.println 2 20))
    /\ SEnd (MoreExamples.spanOf (Examples.println 2 20))
       <= SEnd (MoreExamples.spanOf MoreExamples.fileB)
    /\ forall g, In g before ->
         ~ (SPos (MoreExamples.spanOf g)
            <= SPos (MoreExamples.spanOf (Examples.println 2 20))
            /\ SEnd (MoreExamples.spanOf (Examples.println 2 20))
               <= SEnd (MoreExamples.spanOf g)).
Proof.
  apply (proj1 (findFile_first_enclosing_file MoreExamples.spanOf
                  [MoreExamples.fileA; MoreExamples.fileB]
                  (Examples.println 2 20)) MoreExamples.fileB).
  reflexivity.
Defined.

(** ** Further properties: test files in the revision of src/readme.md *)

Lemma string_length_append (a b : string) :
  String.length (a ++ b) = String.length a + String.length b.
Proof. induction a as [|c a IH]; simpl; [reflexivity | now rewrite IH]. Qed.

Lemma substring_all (s : string) : substring 0 (String.length s) s = s.
Proof. induction s as [|c s IH]; simpl; [reflexivity | now rewrite IH]. Qed.

Lemma substring_skip (a b : string) (m : nat) :
  substring (String.length a) m (a ++ b) = substring 0 m b.
Proof. induction a as [|c a IH]; simpl; [reflexivity | exact IH]. Qed.

Lemma string_split_at (s : string) :
  forall n, n <= String.length s ->
            s = (substring 0 n s ++ substring n (String.length s - n) s)%string.
Proof.
  induction s as [|c s IH]; intros [|n] Hn; simpl in *.
  - reflexivity.
  - lia.
  - now rewrite substring_all.
  - rewrite <- IH by lia. reflexivity.
Qed.

Lemma HasSuffix_iff (s suffix : string) :
  HasSuffix s suffix = true <-> exists stem, s = (stem ++ suffix)%string.
Proof.
  unfold HasSuffix. rewrite andb_true_iff, Nat.leb_le, String.eqb_eq. split.
  - intros [Hlen Hsub].
    exists (substring 0 (String.length s - String.length suffix) s).
    assert (Hle : String.length s - String.length suffix <= String.length s)
      by lia.
    pose proof (string_split_at s _ Hle) as H.
    replace (String.length s - (String.length s - String.length suffix))
      with (String.length suffix) in H by lia.
    now rewrite Hsub in H.
  - intros (stem & ->). rewrite string_length_append. split; [lia|].
    replace (String.length stem + String.length suffix - String.length suffix)
      with (String.length stem) by lia.
    rewrite substring_skip. apply substring_all.
Qed.

(** X17.  The revision embedded in src/readme.md skips exactly the nodes of
    files whose name ends in [_test.go]: for such a file the callback
    reports nothing, whatever the node.  A node whose file is unknown to the
    file set, or whose file name does not end in [_test.go], is analysed:
    for a tracked assignment the callback reports nothing when the
    if-initializer rule or the scan of that revision finds the error handled,
    and otherwise the one diagnostic at the tracked identifier. *)
Theorem Readme_skips_exactly_test_files (fileName : option string) :
  (ReadmeRun.skipped fileName = true <->
   exists stem, fileName = Some (stem ++ "_test.go")%string)
  /\ (ReadmeRun.skipped fileName = true ->
      forall pass file node, ReadmeRun.visit pass fileName file node = [])
  /\ (ReadmeRun.skipped fileName = false ->
      forall pass file assign errIdent path,
        Tracked pass assign errIdent ->
        PathEnclosingInterval file assign = Some path ->
        ReadmeRun.visit pass fileName file assign
        = if Readme.isHandledInIfInit pass errIdent path
             || Readme.isHandledInSubsequentStatement pass errIdent path
          then []
          else [ {| DPos := NamePos errIdent;
                    Message := "error '" ++ Name errIdent
                               ++ "' is not checked or returned" |} ]).
Proof.
  split; [|split].
  - destruct fileName as [name|]; simpl.
    + rewrite HasSuffix_iff. split; intros (stem & H); exists stem; congruence.
    + split; [discriminate|]. intros (stem & H). discriminate.
  - intros Hskip pass file node. unfold ReadmeRun.visit. now rewrite Hskip.
  - intros Hskip pass file assign errIdent path
           (a & Lhs & Tok & F & Args & -> & Hfind) Hpath.
    unfold ReadmeRun.visit. rewrite Hskip, Hfind, Hpath.
    destruct (Readme.isHandledInIfInit pass errIdent path); [reflexivity|].
    now destruct (Readme.isHandledInSubsequentStatement pass errIdent path).
Qed.

(** In [scan.go] the unchecked assignment is reported; in [scan_test.go]
    the same assignment is not. *)
Lemma Readme_skips_exactly_test_files_witness :
  ReadmeRun.visit Examples.pass (Some "scan.go")
    (Examples.funcFile Examples.uncheckedBody)
    (Examples.assignErr 1 DEFINE 10)
  = [ {| DPos := 11; Message := "error 'err' is not checked or returned" |} ]
  /\ ReadmeRun.visit Examples.pass (Some "scan_test.go")
       (Examples.funcFile Examples.uncheckedBody)
       (Examples.assignErr 1 DEFINE 10) = [].
Proof.
  split.
  - refine (proj2 (proj2 (Readme_skips_exactly_test_files (Some "scan.go")))
              _ Examples.pass (Examples.funcFile Examples.uncheckedBody)
              (Examples.assignErr 1 DEFINE 10) (mkIdent "err" 11)
              (Examples.assignErr 1 DEFINE 10
               :: Examples.filePath Examples.uncheckedBody) _ _).
    + reflexivity.
    + exists 1, [Examples.ident "_" 10; Examples.ident "err" 11], DEFINE,
        (Examples.ident "mightFail" 12), []. split; reflexivity.
    + reflexivity.
  - refine (proj1 (proj2 (Readme_skips_exactly_test_files
                            (Some "scan_test.go")))
              _ Examples.pass (Examples.funcFile Examples.uncheckedBody)
              (Examples.assignErr 1 DEFINE 10)).
    reflexivity.
Defined.
